(** * easymod: the bridge between Python and the [module] command

    A shallow embedding of [easymod/core.py] (class [Module]) and the
    properties of its specification.

    - [PyText]: the pieces of Python's [str] and [re] that the manual-page
      parser uses ([str.find], slicing, [re.findall] on the two patterns of
      the source).
    - [Easymod]: the class itself, as a state-and-exception monad over the
      instance, the process (environment table and the globals of
      [easymod.core]), a file system and a trace of the outside calls. *)

From Stdlib Require Import ZArith Lia Bool List Ascii String.
From stdpp Require Import base option list gmap strings.

Local Open Scope string_scope.
Local Open Scope Z_scope.

(* ===================================================================== *)
(** ** Python text primitives *)
(* ===================================================================== *)

Module PyText.

(** A text is a [string]: one [ascii] per code point, so the embedding
    covers texts whose code points are below 256. *)

Definition nl : string := String "010"%char EmptyString.

Definition len (s : string) : Z := Z.of_nat (String.length s).

Fixpoint str_drop (n : nat) (s : string) : string :=
  match n, s with
  | O, _ => s
  | S _, EmptyString => EmptyString
  | S k, String _ t => str_drop k t
  end.

Fixpoint str_take (n : nat) (s : string) : string :=
  match n, s with
  | O, _ => EmptyString
  | S _, EmptyString => EmptyString
  | S k, String c t => String c (str_take k t)
  end.

(** [s.find(sub)]: the lowest index at which [sub] occurs in [s], and
    [-1] when it does not occur. *)
Fixpoint find_at (sub s : string) (i : Z) : Z :=
  if String.prefix sub s then i
  else match s with
       | EmptyString => -1
       | String _ t => find_at sub t (i + 1)
       end.

Definition find (s sub : string) : Z := find_at sub s 0.

(** Python's treatment of a slice bound: a negative bound counts from the
    end, and the result is clamped to [0 .. len]. *)
Definition clamp (n i : Z) : Z :=
  if i <? 0 then Z.max (i + n) 0 else Z.min i n.

(** [s[lo:hi]] *)
Definition slice (s : string) (lo hi : Z) : string :=
  let a := clamp (len s) lo in
  let b := clamp (len s) hi in
  str_take (Z.to_nat (b - a)) (str_drop (Z.to_nat a) s).

(** [s[lo:]] *)
Definition slice_from (s : string) (lo : Z) : string :=
  str_drop (Z.to_nat (clamp (len s) lo)) s.

(** *** The fragment of [re] used by the source

    Both patterns are a sequence of single-character atoms with one
    capturing group of the form [(class+)]. *)

Inductive atom : Type :=
  | Dot                       (* .   any character but a newline *)
  | Chr (c : ascii)           (* a literal character *)
  | Cls (p : ascii -> bool).  (* [...] *)

Inductive item : Type :=
  | One (a : atom)
  | GroupPlus (a : atom).     (* (a+), greedy, capturing *)

Definition regex : Type := list item.

Definition atom_ok (a : atom) (c : ascii) : bool :=
  match a with
  | Dot => negb (Ascii.eqb c "010"%char)
  | Chr d => Ascii.eqb c d
  | Cls p => p c
  end.

(** Length of the longest prefix of [s] whose characters all satisfy [a]. *)
Fixpoint run (a : atom) (s : string) : nat :=
  match s with
  | EmptyString => O
  | String c t => if atom_ok a c then S (run a t) else O
  end.

(** Backtracking of a greedy repetition: try [k], then [k-1], ... down
    to one character. *)
Fixpoint longest_first {X : Type} (k : nat) (f : nat -> option X) : option X :=
  match k with
  | O => None
  | S k' => match f k with
            | Some x => Some x
            | None => longest_first k' f
            end
  end.

(** Match [r] at the start of [s]: the captured groups and what is left
    of [s], or [None]. *)
Fixpoint match_here (r : regex) (s : string) : option (list string * string) :=
  match r with
  | [] => Some ([], s)
  | One a :: r' =>
      match s with
      | EmptyString => None
      | String c t => if atom_ok a c then match_here r' t else None
      end
  | GroupPlus a :: r' =>
      longest_first (run a s)
        (fun k => match match_here r' (str_drop k s) with
                  | Some (gs, rest) => Some (str_take k s :: gs, rest)
                  | None => None
                  end)
  end.

(** What [re.findall] reports for one match: the group when the pattern
    has one, the whole match when it has none. *)
Definition reported (s : string) (gs : list string) (rest : string) : string :=
  match gs with
  | g :: _ => g
  | [] => str_take (String.length s - String.length rest) s
  end.

(** [re.findall]: scan left to right; after a match the scan resumes where
    the match ended ([skip] counts the characters still to pass over). *)
Fixpoint findall_scan (r : regex) (s : string) (skip : nat) : list string :=
  match skip with
  | S k =>
      match s with
      | EmptyString => []
      | String _ t => findall_scan r t k
      end
  | O =>
      match match_here r s with
      | Some (gs, rest) =>
          reported s gs rest ::
          match s with
          | EmptyString => []
          | String _ t =>
              findall_scan r t (String.length s - String.length rest - 1)
          end
      | None =>
          match s with
          | EmptyString => []
          | String _ t => findall_scan r t O
          end
      end
  end.

Definition findall (r : regex) (s : string) : list string := findall_scan r s O.

(** Character classes. [\w] on code points below 256, as Python's [re]
    has it for [str] patterns: letters, digits, the underscore and the
    alphanumeric code points of Latin-1. *)
Definition between (lo hi : N) (c : ascii) : bool :=
  let n := N_of_ascii c in (N.leb lo n && N.leb n hi)%bool.

Definition is_word (c : ascii) : bool :=
  (between 48 57 c || between 65 90 c || between 95 95 c || between 97 122 c
   || between 170 170 c || between 178 179 c || between 181 181 c
   || between 185 186 c || between 188 190 c || between 192 214 c
   || between 216 246 c || between 248 255 c)%bool.

(** [[\w|-]] : a word character, a bar or a hyphen. *)
Definition cls_sub_command (c : ascii) : bool :=
  (is_word c || Ascii.eqb c "|"%char || Ascii.eqb c "-"%char)%bool.

(** [[A-Z|-|_]] : [A-Z], the range from bar to bar, and the underscore;
    the hyphen stands between two bars and so denotes a range, not
    itself. *)
Definition cls_env_var (c : ascii) : bool :=
  (between 65 90 c || between 124 124 c || Ascii.eqb c "_"%char)%bool.

Definition lit (s : string) : regex :=
  map (fun c => One (Chr c)) (list_ascii_of_string s).

(** [r".sp\n\\fB([\w|-]+)\\fP"] *)
Definition re_sub_command : regex :=
  One Dot :: lit "sp" ++ lit nl ++ lit "\fB"
  ++ [GroupPlus (Cls cls_sub_command)] ++ lit "\fP".

(** [r".sp\n\\fB([A-Z|-|_]+)\\fP"] *)
Definition re_env_var : regex :=
  One Dot :: lit "sp" ++ lit nl ++ lit "\fB"
  ++ [GroupPlus (Cls cls_env_var)] ++ lit "\fP".

End PyText.

Import PyText.

(* ===================================================================== *)
(** ** The class [Module] *)
(* ===================================================================== *)

Module Easymod.

(** A [pathlib.Path] (and any [os.PathLike]) is represented by its
    string, [str(p)], and [pathlib.Path(p)] is the identity: a path stands
    for the form pathlib gives it (no trailing slash, a dot for the empty
    string). *)
Abbreviation path := string (only parsing).
Definition Path (p : path) : path := p.

(** Python values that cross the bridge: the arguments and results of the
    dispatcher and the entries of [globals()]. A function object is known
    by an identifier only; what it does is a parameter of the model. *)
Inductive pyval : Type :=
  | PyNone
  | PyStr (s : string)
  | PyInt (n : Z)
  | PyFunction (f : nat).

Inductive exn : Type :=
  | ValueError (msg : string)
  | FileNotFoundError (msg : string)
  | EnvironmentError (msg : string)
  | AttributeError (msg : string)
  | TypeError (msg : string)
  | IndexError (msg : string)
  | RecursionError
  | OpenError (p : path)        (* [open(p, "r")] or [f.read()] failed *)
  | Foreign (what : string).    (* raised by the init script or the dispatcher *)

Inductive outcome (A : Type) : Type :=
  | Return (a : A)
  | Raise (e : exn).
Arguments Return {A} a.
Arguments Raise {A} e.

(** The part of the process that foreign code (the init script, the
    dispatcher) reads and writes: [os.environ] and the [globals()] of
    [easymod.core]. *)
Record Process : Type := mkProcess {
  os_environ : gmap string string;
  py_globals : gmap string pyval
}.

(** The file system as the class sees it. [fs_glob d pat] is
    [list(d.glob(pat))]; [fs_read p] is the text of [p] when it can be
    opened and read. *)
Record FileSystem : Type := mkFileSystem {
  fs_exists : path -> bool;
  fs_glob : path -> string -> list path;
  fs_read : path -> option string
}.

(** Calls that leave the class, in the order they happen. *)
Inductive event : Type :=
  | FsExists (p : path)
  | FsGlob (p : path) (pattern : string)
  | FsOpen (p : path)
  | Exec (source : string)
  | Call (f : pyval) (args : list pyval) (kwargs : list (string * pyval)).

(** The instance. The three attributes assigned by [__init__] are [None]
    until assigned; the two lists start as the class attributes. *)
Record Module : Type := mkModule {
  modules_home : option path;
  init_file : option path;
  module : option pyval;
  sub_commands : list string;
  envinronment_variables : list string
}.

Record State : Type := mkState {
  self : Module;
  proc : Process;
  files : FileSystem;
  trace : list event
}.

(** *** Class attributes *)

Definition default_sub_commands : list string :=
  [ "help"; "add"; "load"; "rm"; "unload"; "swap"; "switch"; "show";
    "display"; "list"; "avail"; "aliases"; "use"; "unuse"; "refresh";
    "reload"; "purge"; "clear"; "source"; "whatis"; "apropos"; "keyword";
    "search"; "test"; "save"; "restore"; "saverm"; "saveshow"; "savelist";
    "initadd"; "initprepend"; "initrm"; "initswitch"; "initlist";
    "initclear"; "path"; "paths"; "config" ].

Definition default_envinronment_variables : list string :=
  [ "LOADEDMODULES"; "MODULECONTACT"; "MODULEPATH"; "MODULERCFILE";
    "MODULESHOME"; "MODULES_AUTO_HANDLING"; "MODULES_AVAIL_INDEPTH";
    "MODULES_CMD"; "MODULES_COLLECTION_PIN_VERSION";
    "MODULES_COLLECTION_TARGET"; "MODULES_COLOR"; "CLICOLOR";
    "MODULES_COLORS"; "MODULES_IMPLICIT_DEFAULT"; "MODULES_LMALTNAME";
    "MODULES_LMCONFLICT"; "MODULES_LMNOTUASKED"; "MODULES_LMPREREQ";
    "MODULES_PAGER"; "MODULES_RUN_QUARANTINE"; "MODULES_SEARCH_MATCH";
    "MODULES_SET_SHELL_STARTUP"; "MODULES_SILENT_SHELL_DEBUG";
    "MODULES_SITECONFIG"; "MODULES_TERM_BACKGROUND";
    "MODULES_UNLOAD_MATCH_ORDER"; "MODULES_USE_COMPAT_VERSION";
    "MODULES_VERBOSITY"; "_LMFILES_" ].

(** The object that [Module.__new__] hands to [__init__]. *)
Definition blank : Module :=
  {| modules_home := None; init_file := None; module := None;
     sub_commands := default_sub_commands;
     envinronment_variables := default_envinronment_variables |}.

(** Names the class body defines, and the instance attributes. *)
Definition methods : list string :=
  [ "__init__"; "set_init_file"; "parse_man_file"; "get_sub_commands";
    "get_environment_variables"; "__getattr__" ].

(** *** The monad: state and exceptions *)

Definition M (A : Type) : Type := State -> outcome A * State.

Definition ret {A : Type} (a : A) : M A := fun st => (Return a, st).

Definition bind {A B : Type} (m : M A) (k : A -> M B) : M B :=
  fun st => match m st with
            | (Return a, st') => k a st'
            | (Raise e, st') => (Raise e, st')
            end.

Definition raise {A : Type} (e : exn) : M A := fun st => (Raise e, st).

Declare Scope py_scope.
Delimit Scope py_scope with py.
Notation "x <- m ;; k" := (bind m (fun x => k))
  (at level 100, m at next level, right associativity) : py_scope.
Notation "m ;; k" := (bind m (fun _ => k))
  (at level 100, right associativity) : py_scope.
Local Open Scope py_scope.

Definition get_self : M Module := fun st => (Return (self st), st).

Definition put_self (s : Module) : M unit :=
  fun st => (Return tt, mkState s (proc st) (files st) (trace st)).

Definition get_proc : M Process := fun st => (Return (proc st), st).

Definition log (ev : event) : M unit :=
  fun st => (Return tt,
             mkState (self st) (proc st) (files st) (trace st ++ [ev])).

(** Attribute assignment [self.x = v]. *)
Definition assign_modules_home (p : path) : M unit :=
  s <- get_self ;;
  put_self (mkModule (Some p) (init_file s) (module s)
                     (sub_commands s) (envinronment_variables s)).

Definition assign_init_file (p : path) : M unit :=
  s <- get_self ;;
  put_self (mkModule (modules_home s) (Some p) (module s)
                     (sub_commands s) (envinronment_variables s)).

Definition assign_module (v : pyval) : M unit :=
  s <- get_self ;;
  put_self (mkModule (modules_home s) (init_file s) (Some v)
                     (sub_commands s) (envinronment_variables s)).

Definition assign_sub_commands (l : list string) : M unit :=
  s <- get_self ;;
  put_self (mkModule (modules_home s) (init_file s) (module s)
                     l (envinronment_variables s)).

Definition assign_envinronment_variables (l : list string) : M unit :=
  s <- get_self ;;
  put_self (mkModule (modules_home s) (init_file s) (module s)
                     (sub_commands s) l).

(** File-system calls. *)
Definition exists_ (p : path) : M bool :=
  log (FsExists p) ;;
  fun st => (Return (fs_exists (files st) p), st).

Definition glob (d : path) (pattern : string) : M (list path) :=
  log (FsGlob d pattern) ;;
  fun st => (Return (fs_glob (files st) d pattern), st).

(** [with open(p, "r") as f: f.read()] *)
Definition open_read (p : path) : M string :=
  log (FsOpen p) ;;
  fun st => match fs_read (files st) p with
            | Some text => (Return text, st)
            | None => (Raise (OpenError p), st)
            end.

(** [os.path.join] on POSIX, for two components and then for a list. *)
Definition ends_with_slash (a : string) : bool :=
  match rev (list_ascii_of_string a) with
  | c :: _ => Ascii.eqb c "/"%char
  | [] => false
  end.

Definition join2 (a b : string) : string :=
  if String.prefix "/" b then b
  else if (String.eqb a "" || ends_with_slash a)%bool then a ++ b
  else a ++ "/" ++ b.

Definition os_path_join (a : string) (rest : list string) : string :=
  fold_left join2 rest a.

(** *** The class, over the foreign code it runs

    [py_exec source p] is [exec(source, globals())] started in process
    state [p]: the state it leaves and the exception it raised, if any.
    [py_call f args kwargs p] is the call [f( *args, **kwargs)] of a value
    obtained from [globals()]. [object_attrs] are the attribute names every
    instance inherits from [object]. The names [os], [pathlib] and [re] in
    [globals()] are taken to stay bound to the library modules. *)

Section Class.

Variable py_exec : string -> Process -> Process * option exn.
Variable py_call :
  pyval -> list pyval -> list (string * pyval) -> Process ->
  Process * outcome pyval.
Variable object_attrs : list string.

Definition exec (source : string) : M unit :=
  log (Exec source) ;;
  fun st =>
    let '(p', r) := py_exec source (proc st) in
    let st' := mkState (self st) p' (files st) (trace st) in
    match r with
    | None => (Return tt, st')
    | Some e => (Raise e, st')
    end.

Definition call (f : pyval) (args : list pyval)
    (kwargs : list (string * pyval)) : M pyval :=
  log (Call f args kwargs) ;;
  fun st =>
    let '(p', r) := py_call f args kwargs (proc st) in
    (r, mkState (self st) p' (files st) (trace st)).

(** What an attribute access can yield. [AWrapper _name] is the closure
    [wrapper] that [__getattr__] returns, which has captured [_name]. *)
Inductive attr : Type :=
  | AList (l : list string)
  | APath (p : path)
  | AValue (v : pyval)
  | ADict (d : gmap string string)
  | AMethod (name : string)
  | AInherited (name : string)
  | AWrapper (_name : string).

Definition no_such_attribute (_name : string) : exn :=
  AttributeError ("Module has no such attribute " ++ _name).

Definition __getattr__ (_name : string) : M attr :=
  s <- get_self ;;
  if bool_decide (_name ∈ sub_commands s)
  then ret (AWrapper _name)
  else raise (no_such_attribute _name).

(** The body of the closure: [return self.module(_name, *args, **kwargs)].
    With [self.module] unassigned the read goes to [__getattr__], which
    raises, or hands back a wrapper for ["module"] whose call reads
    [self.module] again, without end. *)
Definition wrapper (_name : string) (args : list pyval)
    (kwargs : list (string * pyval)) : M pyval :=
  s <- get_self ;;
  match module s with
  | Some f => call f (PyStr _name :: args) kwargs
  | None =>
      if bool_decide ("module" ∈ sub_commands s)
      then raise RecursionError
      else raise (no_such_attribute "module")
  end.

(** Reads [self.modules_home] and [self.init_file] inside the methods.
    An unassigned attribute is resolved by [__getattr__]; should that
    return a wrapper, using the wrapper as a path raises [misuse]. *)
Definition self_modules_home (misuse : exn) : M path :=
  s <- get_self ;;
  match modules_home s with
  | Some p => ret p
  | None => _ <- __getattr__ "modules_home" ;; raise misuse
  end.

Definition self_init_file (misuse : exn) : M path :=
  s <- get_self ;;
  match init_file s with
  | Some p => ret p
  | None => _ <- __getattr__ "init_file" ;; raise misuse
  end.

Definition not_a_path : exn :=
  TypeError "expected str, bytes or os.PathLike object, not function".

Definition set_init_file (init_file : option path) : M unit :=
  match init_file with
  | Some f =>
      assign_init_file (Path f) ;;
      p <- self_init_file
             (AttributeError "'function' object has no attribute 'exists'") ;;
      found <- exists_ p ;;
      if negb found
      then raise (FileNotFoundError
                    ("Module initialisation file not found" ++ nl ++ p))
      else ret tt
  | None =>
      home <- self_modules_home
                (AttributeError "'function' object has no attribute 'glob'") ;;
      possible_init_files <- glob home "**/init/*python*.py" ;;
      if (length possible_init_files =? 0)%nat
      then raise (FileNotFoundError
                    "Modules initialisation file could not be found. ")
      else if (1 <? length possible_init_files)%nat
      then
        let files := String.concat ", " possible_init_files in
        raise (ValueError
                 ("Multiple possible Module initialisation files found"
                  ++ nl ++ files))
      else
        match possible_init_files with
        | p :: _ => assign_init_file p
        | [] => raise (IndexError "list index out of range")
        end
  end.

Definition home_unset_message : string :=
  "Cannot automatically set modules_home. Environment variable MODULESHOME unset. Pass module home directory to Module".

Definition __init__ (home init_file : option path) : M unit :=
  match home with
  | Some h => assign_modules_home (Path h)
  | None =>
      p <- get_proc ;;
      match os_environ p !! "MODULESHOME" with
      | Some v => assign_modules_home (Path v)
      | None => raise (ValueError home_unset_message)
      end
  end ;;
  set_init_file init_file ;;
  f <- self_init_file not_a_path ;;
  source <- open_read f ;;
  exec source ;;
  p <- get_proc ;;
  match py_globals p !! "module" with
  | Some m => assign_module m
  | None =>
      raise (EnvironmentError "The module environment could not be initialised.")
  end.

(** [Module(home, init_file)]: a new object, then [__init__]. The caller
    receives the object only when the outcome is [Return]. *)
Definition construct (home init_file : option path) : M unit :=
  put_self blank ;;
  __init__ home init_file.

Definition manual (man_file : option path) : M string :=
  f <- match man_file with
       | Some f => ret f
       | None =>
           home <- self_modules_home not_a_path ;;
           ret (os_path_join home ["share"; "man"; "man1"; "module.1"])
       end ;;
  open_read f.

Definition get_sub_commands (man_file : option path) : M unit :=
  man <- manual man_file ;;
  let start := find man ".SS Module Sub\-Commands" in
  let end_ := start + find (slice_from man (start + 3)) ".SS" + 1 in
  let sub_commands_section := slice man start end_ in
  assign_sub_commands (findall re_sub_command sub_commands_section).

Definition get_environment_variables (man_file : option path) : M unit :=
  man <- manual man_file ;;
  let start := find man ".SH ENVIRONMENT" in
  let end_ := start + find (slice_from man (start + 3)) (nl ++ ".S") + 1 in
  let environment_vars_section := slice man start end_ in
  assign_envinronment_variables (findall re_env_var environment_vars_section).

Definition parse_man_file (man_file : option path) : M unit :=
  get_sub_commands man_file ;;
  get_environment_variables man_file.

(** The property [environ]: the dict comprehension, one insertion per
    name of the list whose variable is set. *)
Definition environ_of (env : gmap string string) (vars : list string)
    : gmap string string :=
  fold_left
    (fun d var => match env !! var with
                  | Some v => <[var := v]> d
                  | None => d
                  end)
    vars ∅.

Definition environ : M (gmap string string) :=
  s <- get_self ;;
  p <- get_proc ;;
  ret (environ_of (os_environ p) (envinronment_variables s)).

(** *** Attribute access from outside, [m.name]

    Python looks [name] up on the instance and its class first and calls
    [__getattr__] only when that fails. *)
Definition instance_attr (s : Module) (name : string) : option attr :=
  if String.eqb name "modules_home" then APath <$> modules_home s
  else if String.eqb name "init_file" then APath <$> init_file s
  else if String.eqb name "module" then AValue <$> module s
  else None.

Definition class_attr (s : Module) (name : string) : option attr :=
  if String.eqb name "sub_commands" then Some (AList (sub_commands s))
  else if String.eqb name "envinronment_variables"
  then Some (AList (envinronment_variables s))
  else if bool_decide (name ∈ methods) then Some (AMethod name)
  else if bool_decide (name ∈ object_attrs) then Some (AInherited name)
  else None.

(** [name] is an intrinsic member of the instance. *)
Definition is_member (s : Module) (name : string) : bool :=
  (String.eqb name "environ"
   || bool_decide (is_Some (instance_attr s name))
   || bool_decide (is_Some (class_attr s name)))%bool.

Definition getattribute (name : string) : M attr :=
  s <- get_self ;;
  if String.eqb name "environ" then d <- environ ;; ret (ADict d)
  else match instance_attr s name with
       | Some a => ret a
       | None =>
           match class_attr s name with
           | Some a => ret a
           | None => __getattr__ name
           end
       end.

(** *** What a caller can do with an instance *)

Inductive operation : Type :=
  | DoSetInitFile (init_file : option path)
  | DoParseManFile (man_file : option path)
  | DoGetSubCommands (man_file : option path)
  | DoGetEnvironmentVariables (man_file : option path)
  | DoGetattribute (name : string)
  | DoCallWrapper (_name : string) (args : list pyval)
      (kwargs : list (string * pyval))
  | DoEnviron.

Definition forget {A : Type} (m : M A) : State -> State := fun st => snd (m st).

Definition perform (op : operation) : State -> State :=
  match op with
  | DoSetInitFile f => forget (set_init_file f)
  | DoParseManFile f => forget (parse_man_file f)
  | DoGetSubCommands f => forget (get_sub_commands f)
  | DoGetEnvironmentVariables f => forget (get_environment_variables f)
  | DoGetattribute name => forget (getattribute name)
  | DoCallWrapper _name args kwargs => forget (wrapper _name args kwargs)
  | DoEnviron => forget environ
  end.

(** A caller's session: operations one after another, whatever each one
    returns or raises. *)
Definition session (ops : list operation) (st : State) : State :=
  fold_left (fun st op => perform op st) ops st.

End Class.

End Easymod.

(* ===================================================================== *)
(** ** A small concrete world for the examples *)
(* ===================================================================== *)

Module Demo.

Import Easymod.

(** Two init scripts: one defines [module], the empty one defines
    nothing. [tiny_exec] runs exactly these two. *)
Definition script_def : string :=
  "def module(command, *arguments): return command".

Definition tiny_exec (source : string) (p : Process) : Process * option exn :=
  if String.eqb source script_def
  then (mkProcess (os_environ p) (<["module" := PyFunction 0]> (py_globals p)),
        None)
  else if String.eqb source ""
  then (p, None)
  else (p, Some (Foreign "not one of the example scripts")).

(** The function defined by [script_def] returns its first argument. *)
Definition tiny_call (f : pyval) (args : list pyval)
    (kwargs : list (string * pyval)) (p : Process) : Process * outcome pyval :=
  match f, args, kwargs with
  | PyFunction O, command :: _, [] => (p, Return command)
  | PyFunction O, _, _ => (p, Raise (TypeError "module() got unexpected arguments"))
  | _, _, _ => (p, Raise (TypeError "object is not callable"))
  end.

Definition python_object_attrs : list string :=
  [ "__class__"; "__delattr__"; "__dict__"; "__dir__"; "__doc__"; "__eq__";
    "__format__"; "__ge__"; "__getattribute__"; "__gt__"; "__hash__";
    "__init__"; "__init_subclass__"; "__le__"; "__lt__"; "__module__";
    "__ne__"; "__new__"; "__reduce__"; "__reduce_ex__"; "__repr__";
    "__setattr__"; "__sizeof__"; "__str__"; "__subclasshook__";
    "__weakref__" ].

Definition home_dir : path := "/opt/modules".
Definition init_py : path := "/opt/modules/init/python.py".
Definition empty_py : path := "/tmp/empty.py".
Definition man_plain : path := "/tmp/plain.1".
Definition man_tight : path := "/tmp/tight.1".
Definition man_roomy : path := "/tmp/roomy.1".
Definition man_odd : path := "/tmp/odd.1".

(** A manual with no section marker at all. *)
Definition text_plain : string := "no section markers in this text".

(** A sub-commands section with the entries [A] and [B-C]; the next
    section header follows the last entry on the next line. *)
Definition text_tight : string :=
  ".SH DESCRIPTION" ++ nl ++
  ".SS Module Sub\-Commands" ++ nl ++
  ".sp" ++ nl ++ "\fBA\fP" ++ nl ++
  ".sp" ++ nl ++ "\fBB-C\fP" ++ nl ++
  ".SS Modulefiles" ++ nl.

(** The same section with a line of description after the last entry. *)
Definition text_roomy : string :=
  ".SH DESCRIPTION" ++ nl ++
  ".SS Module Sub\-Commands" ++ nl ++
  ".sp" ++ nl ++ "\fBA\fP" ++ nl ++
  ".sp" ++ nl ++ "\fBB-C\fP" ++ nl ++
  "Does B to C." ++ nl ++
  ".SS Modulefiles" ++ nl.

(** A manual whose sub-commands section lists [environ]. *)
Definition text_odd : string :=
  ".SS Module Sub\-Commands" ++ nl ++
  ".sp" ++ nl ++ "\fBenviron\fP" ++ nl ++
  "Print the environment." ++ nl ++
  ".SS Modulefiles" ++ nl.

Definition disk : FileSystem :=
  {| fs_exists p :=
       bool_decide (p ∈ [home_dir; "/opt/modules/init"; init_py; empty_py;
                         man_plain; man_tight; man_roomy; man_odd]);
     fs_glob d pattern :=
       if (String.eqb d home_dir && String.eqb pattern "**/init/*python*.py")%bool
       then [init_py] else [];
     fs_read p :=
       if String.eqb p init_py then Some script_def
       else if String.eqb p empty_py then Some ""
       else if String.eqb p man_plain then Some text_plain
       else if String.eqb p man_tight then Some text_tight
       else if String.eqb p man_roomy then Some text_roomy
       else if String.eqb p man_odd then Some text_odd
       else None |}.

(** A directory tree with two candidate init scripts. *)
Definition disk_two : FileSystem :=
  {| fs_exists p := bool_decide (p ∈ ["/usr/share/modules"]);
     fs_glob d pattern :=
       if (String.eqb d "/usr/share/modules"
           && String.eqb pattern "**/init/*python*.py")%bool
       then ["/usr/share/modules/init/python.py";
             "/usr/share/modules/old/init/python3.py"]
       else [];
     fs_read p := None |}.

(** A process in which [MODULESHOME] is unset and [globals()] holds no
    [module], and one in which [MODULESHOME] is set. *)
Definition bare : Process := mkProcess ∅ ∅.
Definition with_home : Process :=
  mkProcess {[ "MODULESHOME" := home_dir ]} ∅.

Definition start (p : Process) (fs : FileSystem) : State :=
  mkState blank p fs [].

(** An instance constructed from [init_py], whatever the process was. *)
Definition ready : State :=
  snd (construct tiny_exec (Some home_dir) None (start bare disk)).

End Demo.

(* ===================================================================== *)
(** ** Vocabulary of the statements *)
(* ===================================================================== *)

Import Easymod.

(** [sub] occurs somewhere in [s]. *)
Definition occurs (sub s : string) : Prop :=
  exists pre post : string, s = pre ++ sub ++ post.

(** The computation [m] leaves [self.modules_home] as it finds it,
    whether it returns or raises. *)
Definition keeps_home {A : Type} (m : M A) : Prop :=
  forall st, modules_home (self (snd (m st))) = modules_home (self st).

(** The computation [m] leaves what [obs] sees of the state as it finds
    it, whether it returns or raises. *)
Definition unchanged {A B : Type} (obs : State -> B) (m : M A) : Prop :=
  forall st, obs (snd (m st)) = obs st.

(** Things to watch, beside [proc]: the dispatcher and the two
    capability lists. *)
Definition dispatcher (st : State) : option pyval := module (self st).

Definition capability_lists (st : State) : list string * list string :=
  (sub_commands (self st), envinronment_variables (self st)).

(** The operation is a call of a forwarding wrapper. *)
Definition is_forward (op : operation) : bool :=
  match op with
  | DoCallWrapper _ _ _ => true
  | _ => false
  end.

(** The operation is one of the three that parse the manual. *)
Definition is_parse (op : operation) : bool :=
  match op with
  | DoParseManFile _ | DoGetSubCommands _ | DoGetEnvironmentVariables _ => true
  | _ => false
  end.

(** The file that [get_sub_commands] and [get_environment_variables]
    open: the one given, or [share/man/man1/module.1] under the home. *)
Definition manual_path (man_file : option path) (s : Module) : option path :=
  match man_file with
  | Some f => Some f
  | None =>
      match modules_home s with
      | Some h => Some (os_path_join h ["share"; "man"; "man1"; "module.1"])
      | None => None
      end
  end.

(** What the two parsers compute from the text of the manual. *)
Definition sub_commands_of (man : string) : list string :=
  let start := find man ".SS Module Sub\-Commands" in
  let end_ := start + find (slice_from man (start + 3)) ".SS" + 1 in
  findall re_sub_command (slice man start end_).

Definition environment_variables_of (man : string) : list string :=
  let start := find man ".SH ENVIRONMENT" in
  let end_ := start + find (slice_from man (start + 3)) (nl ++ ".S") + 1 in
  findall re_env_var (slice man start end_).

(** Every character of [s] satisfies [p]. *)
Fixpoint str_forall (p : ascii -> bool) (s : string) : bool :=
  match s with
  | EmptyString => true
  | String c t => (p c && str_forall p t)%bool
  end.

(** The groups that a match of [r] can capture: one for each [(a+)], not
    empty and made of characters of [a]. *)
Fixpoint groups_valid (r : regex) (gs : list string) : Prop :=
  match r with
  | [] => gs = []
  | One _ :: r' => groups_valid r' gs
  | GroupPlus a :: r' =>
      exists g gs', gs = g :: gs' /\ g <> "" /\
                    str_forall (atom_ok a) g = true /\ groups_valid r' gs'
  end.

(** The shape shared by the two patterns of the source,
    [.sp\n\\fB(class+)\\fP], for a class [c]. *)
Definition entry_regex (c : ascii -> bool) : regex :=
  One Dot :: lit "sp" ++ lit nl ++ lit "\fB" ++ [GroupPlus (Cls c)] ++ lit "\fP".

(** An entry as the manual writes it: a [.sp] line, then the name in
    bold. [entries] puts each entry on lines of its own. *)
Definition entry (t : string) : string := ".sp" ++ nl ++ "\fB" ++ t ++ "\fP".

Fixpoint entries (ts : list string) : string :=
  match ts with
  | [] => ""
  | t :: ts' => entry t ++ nl ++ entries ts'
  end.

(** More of the small world: a script that [Demo.tiny_exec] does not
    run to its end, a path that exists and cannot be read, and a manual
    whose sub-commands section is the last [.SS] section. *)
Module Cases.

Definition broken_py : path := "/tmp/broken.py".
Definition locked_py : path := "/tmp/locked.py".
Definition man_last : path := "/tmp/last.1".
Definition man_env : path := "/tmp/env.1".

Definition text_last : string :=
  ".SH DESCRIPTION" ++ nl ++
  ".SS Module Sub\-Commands" ++ nl ++
  ".sp" ++ nl ++ "\fBA\fP" ++ nl ++
  ".sp" ++ nl ++ "\fBB-C\fP" ++ nl ++
  "Does B to C." ++ nl ++
  ".SH ENVIRONMENT" ++ nl.

(** A manual with an environment section of two entries. *)
Definition text_env : string :=
  ".SH DESCRIPTION" ++ nl ++
  ".SH ENVIRONMENT" ++ nl ++
  entries ["LOADEDMODULES"; "MODULEPATH"] ++
  "The path." ++ nl ++
  ".SH FILES" ++ nl.

(** [Demo.tiny_exec], and the script [raise SystemExit]. *)
Definition exec_ (source : string) (p : Process) : Process * option exn :=
  if String.eqb source "raise SystemExit"
  then (p, Some (Foreign "SystemExit"))
  else Demo.tiny_exec source p.

Definition disk : FileSystem :=
  {| fs_exists p :=
       bool_decide (p ∈ [Demo.home_dir; Demo.init_py; broken_py; locked_py;
                         man_last; man_env]);
     fs_glob d pattern := fs_glob Demo.disk d pattern;
     fs_read p :=
       if String.eqb p broken_py then Some "raise SystemExit"
       else if String.eqb p locked_py then None
       else if String.eqb p man_last then Some text_last
       else if String.eqb p man_env then Some text_env
       else fs_read Demo.disk p |}.

End Cases.

(* ===================================================================== *)
(** ** Properties of the text primitives *)
(* ===================================================================== *)

Lemma len_nonneg (s : string) : 0 <= len s.
Proof. unfold len. lia. Qed.

Lemma len_String (c : ascii) (s : string) : len (String c s) = len s + 1.
Proof. unfold len. simpl String.length. lia. Qed.

Lemma prefix_split (a b : string) :
  String.prefix a b = true -> exists rest, b = a ++ rest.
Proof.
  revert b. induction a as [|c a IH]; intros b H.
  - exists b. reflexivity.
  - destruct b as [|d b]; simpl in H; [discriminate|].
    destruct (ascii_dec c d) as [->|]; [|discriminate].
    destruct (IH b H) as [rest ->]. exists rest. reflexivity.
Qed.

Lemma prefix_empty (s : string) : String.prefix "" s = true.
Proof. destruct s; reflexivity. Qed.

Lemma prefix_append (a post : string) : String.prefix a (a ++ post) = true.
Proof.
  induction a as [|c a IH]; [apply prefix_empty|].
  change (String c a ++ post) with (String c (a ++ post)). simpl.
  destruct (ascii_dec c c); [exact IH | congruence].
Qed.

Lemma prefix_len (a b : string) : String.prefix a b = true -> len a <= len b.
Proof.
  revert b. induction a as [|c a IH]; intros b H.
  - apply len_nonneg.
  - destruct b as [|d b]; simpl in H; [discriminate|].
    destruct (ascii_dec c d); [|discriminate].
    rewrite !len_String. specialize (IH b H). lia.
Qed.

Lemma find_at_nil (sub : string) (i : Z) :
  find_at sub "" i = if String.prefix sub "" then i else -1.
Proof. reflexivity. Qed.

Lemma find_at_cons (sub : string) (c : ascii) (t : string) (i : Z) :
  find_at sub (String c t) i =
  if String.prefix sub (String c t) then i else find_at sub t (i + 1).
Proof. reflexivity. Qed.

(** [find_at] answers [-1] or an index at which [sub] fits. *)
Lemma find_at_range (sub s : string) (i : Z) :
  find_at sub s i = -1 \/
  (i <= find_at sub s i /\ find_at sub s i + len sub <= i + len s).
Proof.
  revert i. induction s as [|c s IH]; intros i;
    [rewrite find_at_nil | rewrite find_at_cons].
  - destruct (String.prefix sub "") eqn:E; [right | left; reflexivity].
    apply prefix_len in E. lia.
  - destruct (String.prefix sub (String c s)) eqn:E.
    + right. apply prefix_len in E. lia.
    + destruct (IH (i + 1)) as [H | H]; [left; exact H | right].
      rewrite len_String. lia.
Qed.

Lemma find_range (s sub : string) :
  find s sub = -1 \/ (0 <= find s sub /\ find s sub + len sub <= len s).
Proof.
  unfold find. destruct (find_at_range sub s 0) as [H | H]; [left | right]; lia.
Qed.

Lemma find_at_absent (sub s : string) (i : Z) :
  ~ occurs sub s -> find_at sub s i = -1.
Proof.
  revert i. induction s as [|c s IH]; intros i H;
    [rewrite find_at_nil | rewrite find_at_cons].
  - destruct (String.prefix sub "") eqn:E; [|reflexivity].
    exfalso. apply H. apply prefix_split in E as [rest E].
    exists "", rest. exact E.
  - destruct (String.prefix sub (String c s)) eqn:E.
    + exfalso. apply H. apply prefix_split in E as [rest E].
      exists "", rest. exact E.
    + apply IH. intros (pre & post & ->). apply H.
      exists (String c pre), post. reflexivity.
Qed.

Lemma find_at_hit (sub s : string) (i : Z) :
  String.prefix sub s = true -> find_at sub s i = i.
Proof.
  intros H. destruct s; [rewrite find_at_nil | rewrite find_at_cons];
    rewrite H; reflexivity.
Qed.

Lemma find_at_present (sub s : string) (i : Z) :
  occurs sub s -> 0 <= i -> find_at sub s i <> -1.
Proof.
  intros (pre & post & ->). revert i.
  induction pre as [|c pre IH]; intros i Hi.
  - change ("" ++ sub ++ post) with (sub ++ post).
    rewrite find_at_hit by apply prefix_append. lia.
  - change (String c pre ++ sub ++ post) with (String c (pre ++ sub ++ post)).
    rewrite find_at_cons.
    destruct (String.prefix sub (String c (pre ++ sub ++ post)));
      [lia | apply IH; lia].
Qed.

(** [str.find] answers [-1] exactly when the text does not occur. *)
Lemma find_absent_iff (s sub : string) : find s sub = -1 <-> ~ occurs sub s.
Proof.
  unfold find. split.
  - intros H Hocc. apply (find_at_present sub s 0 Hocc); [lia | exact H].
  - apply find_at_absent.
Qed.

Lemma str_drop_length (n : nat) (s : string) :
  String.length (str_drop n s) = (String.length s - n)%nat.
Proof.
  revert s. induction n as [|n IH]; intros s; simpl; [lia|].
  destruct s; simpl; [reflexivity | apply IH].
Qed.

Lemma slice_from_len (s : string) (lo : Z) :
  0 <= lo -> len (slice_from s lo) = len s - Z.min lo (len s).
Proof.
  intros H. unfold slice_from, clamp, len.
  destruct (lo <? 0) eqn:E; [lia|].
  rewrite str_drop_length. lia.
Qed.

(** A slice whose upper bound is not above its lower bound is empty. *)
Lemma slice_empty (s : string) (lo hi : Z) :
  clamp (len s) hi <= clamp (len s) lo -> slice s lo hi = "".
Proof.
  intros H. unfold slice.
  replace (Z.to_nat (clamp (len s) hi - clamp (len s) lo)) with O by lia.
  reflexivity.
Qed.

(** With the [.SH ENVIRONMENT] marker absent, [start] is [-1] and the
    text between the bounds computed by [get_environment_variables] is
    empty, whatever follows in the manual. *)
Lemma environment_section_without_marker (man : string) :
  let start := -1 in
  let end_ := start + find (slice_from man (start + 3)) (nl ++ ".S") + 1 in
  slice man start end_ = "".
Proof.
  cbv zeta. apply slice_empty.
  pose proof (len_nonneg man) as Hn.
  pose proof (find_range (slice_from man (-1 + 3)) (nl ++ ".S")) as Hr.
  rewrite slice_from_len in Hr by lia.
  change (len (nl ++ ".S")) with 3 in Hr.
  set (r := find (slice_from man (-1 + 3)) (nl ++ ".S")) in *.
  unfold clamp. change (-1 <? 0) with true. cbv iota.
  destruct (-1 + r + 1 <? 0) eqn:E.
  - apply Z.ltb_lt in E. lia.
  - apply Z.ltb_ge in E. lia.
Qed.

(* ===================================================================== *)
(** ** The manual-page parser *)
(* ===================================================================== *)

(** Reading the manual changes nothing but the trace. *)
Lemma manual_reads_only (man_file : option path) (st : State) :
  self (snd (manual man_file st)) = self st /\
  proc (snd (manual man_file st)) = proc st /\
  files (snd (manual man_file st)) = files st.
Proof.
  unfold manual, self_modules_home, __getattr__, open_read, bind, get_self,
    ret, raise, log.
  destruct man_file as [f|]; cbn [self proc files trace fst snd].
  - destruct (fs_read (files st) f); repeat split.
  - destruct (modules_home (self st)) as [h|];
      cbn [self proc files trace fst snd].
    + destruct (fs_read (files st) _); repeat split.
    + destruct (bool_decide _); repeat split.
Qed.

(** C2, as stated, fails: parsing a manual without the
    [.SH ENVIRONMENT] marker does not raise, but it does not keep the
    list either. On the text [Demo.text_plain] the default list of 29
    names is replaced by the empty list. *)
Lemma environment_variables_not_kept :
  ~ (forall (man_file : option path) (man : string) (st st1 : State),
        manual man_file st = (Return man, st1) ->
        ~ occurs ".SH ENVIRONMENT" man ->
        exists st2,
          get_environment_variables man_file st = (Return tt, st2) /\
          envinronment_variables (self st2) = envinronment_variables (self st)).
Proof.
  intros claim.
  destruct (claim (Some Demo.man_plain) Demo.text_plain
                  (Demo.start Demo.bare Demo.disk)
                  (snd (manual (Some Demo.man_plain)
                               (Demo.start Demo.bare Demo.disk))))
    as (st2 & Hrun & Hkept).
  - reflexivity.
  - apply find_absent_iff. reflexivity.
  - vm_compute in Hrun. inversion Hrun; subst st2. discriminate Hkept.
Qed.

(** C2, amended: for every manual text in which the [.SH ENVIRONMENT]
    marker does not occur, [get_environment_variables] raises no
    exception and replaces the environment-variable list by the empty
    list; nothing else of the instance changes, and the only trace left
    is that of reading the manual. *)
Theorem environment_variables_emptied_without_marker
    (man_file : option path) (man : string) (st st1 : State) :
  manual man_file st = (Return man, st1) ->
  ~ occurs ".SH ENVIRONMENT" man ->
  get_environment_variables man_file st =
    (Return tt,
     mkState (mkModule (modules_home (self st)) (init_file (self st))
                       (module (self st)) (sub_commands (self st)) [])
             (proc st) (files st) (trace st1)).
Proof.
  intros Hman Habsent. apply find_absent_iff in Habsent.
  unfold get_environment_variables, bind. rewrite Hman. cbv zeta.
  rewrite Habsent, environment_section_without_marker.
  destruct (manual_reads_only man_file st) as (Hself & Hproc & Hfiles).
  rewrite Hman in Hself, Hproc, Hfiles. cbn [snd] in Hself, Hproc, Hfiles.
  unfold assign_envinronment_variables, bind, get_self, put_self.
  cbn [findall findall_scan]. rewrite Hself, Hproc, Hfiles.
  reflexivity.
Qed.

Lemma environment_variables_emptied_witness :
  let st := Demo.start Demo.bare Demo.disk in
  let st1 := snd (manual (Some Demo.man_plain) st) in
  manual (Some Demo.man_plain) st = (Return Demo.text_plain, st1) /\
  ~ occurs ".SH ENVIRONMENT" Demo.text_plain /\
  envinronment_variables
    (self (snd (get_environment_variables (Some Demo.man_plain) st))) = [].
Proof.
  cbv zeta. split; [reflexivity|]. split.
  - apply find_absent_iff. reflexivity.
  - rewrite (environment_variables_emptied_without_marker
               (Some Demo.man_plain) Demo.text_plain
               (Demo.start Demo.bare Demo.disk)
               (snd (manual (Some Demo.man_plain)
                            (Demo.start Demo.bare Demo.disk)))).
    + reflexivity.
    + reflexivity.
    + apply find_absent_iff. reflexivity.
Defined.

(* ===================================================================== *)
(** ** Locating the init script *)
(* ===================================================================== *)

Lemma append_empty_r (s : string) : s ++ "" = s.
Proof.
  induction s as [|c s IH]; [reflexivity|].
  change (String c s ++ "") with (String c (s ++ "")). now rewrite IH.
Qed.

Lemma append_assoc (a b c : string) : (a ++ b) ++ c = a ++ b ++ c.
Proof.
  induction a as [|x a IH]; [reflexivity|].
  change ((String x a ++ b) ++ c) with (String x ((a ++ b) ++ c)).
  change (String x a ++ b ++ c) with (String x (a ++ b ++ c)).
  now rewrite IH.
Qed.

Lemma occurs_refl (s : string) : occurs s s.
Proof. exists "", "". now rewrite append_empty_r. Qed.

Lemma occurs_append_l (sub s post : string) :
  occurs sub s -> occurs sub (s ++ post).
Proof.
  intros (a & b & ->). exists a, (b ++ post).
  now rewrite !append_assoc.
Qed.

Lemma occurs_append_r (sub pre s : string) :
  occurs sub s -> occurs sub (pre ++ s).
Proof.
  intros (a & b & ->). exists (pre ++ a), b.
  now rewrite !append_assoc.
Qed.

(** Every element of a joined list occurs in the result. *)
Lemma concat_occurs (sep : string) (l : list string) (c : string) :
  c ∈ l -> occurs c (String.concat sep l).
Proof.
  induction l as [|x l IH]; intros Hin.
  - inversion Hin.
  - destruct l as [|y l].
    + apply list_elem_of_singleton in Hin as ->. apply occurs_refl.
    + change (String.concat sep (x :: y :: l))
        with (x ++ sep ++ String.concat sep (y :: l)).
      apply elem_of_cons in Hin as [-> | Hin].
      * apply occurs_append_l, occurs_refl.
      * apply occurs_append_r, occurs_append_r, IH, Hin.
Qed.

(** C4: [set_init_file()] with no path given searches
    [modules_home] with the pattern [**/init/*python*.py]. One candidate:
    it returns and [init_file] is that candidate. No candidate: it raises
    [FileNotFoundError]. More than one: it raises [ValueError] with a
    message in which every candidate occurs, and [init_file] is left as
    it was: none is picked. *)
Theorem init_file_search (st : State) (home : path) :
  modules_home (self st) = Some home ->
  let pattern := "**/init/*python*.py" in
  let searched :=
    mkState (self st) (proc st) (files st) (trace st ++ [FsGlob home pattern]) in
  match fs_glob (files st) home pattern with
  | [] =>
      set_init_file None st =
        (Raise (FileNotFoundError
                  "Modules initialisation file could not be found. "),
         searched)
  | [c] =>
      set_init_file None st =
        (Return tt,
         mkState (mkModule (modules_home (self st)) (Some c) (module (self st))
                           (sub_commands (self st))
                           (envinronment_variables (self st)))
                 (proc st) (files st) (trace searched))
  | candidates =>
      let msg := "Multiple possible Module initialisation files found"
                 ++ nl ++ String.concat ", " candidates in
      set_init_file None st = (Raise (ValueError msg), searched) /\
      forall c, c ∈ candidates -> occurs c msg
  end.
Proof.
  destruct st as [[home' file' disp subs vars] p fs tr].
  cbn [self modules_home]. intros [= ->]. cbv zeta.
  unfold set_init_file, self_modules_home, glob, bind, get_self, ret, log.
  cbn [self files proc trace modules_home].
  destruct (fs_glob fs home "**/init/*python*.py") as [|c [|c2 l]].
  - reflexivity.
  - reflexivity.
  - cbv zeta. split; [reflexivity|].
    intros c' Hin. apply occurs_append_r, occurs_append_r.
    apply concat_occurs, Hin.
Qed.

Lemma init_file_search_witness :
  let st := mkState (mkModule (Some Demo.home_dir) None None [] [])
                    Demo.bare Demo.disk [] in
  modules_home (self st) = Some Demo.home_dir /\
  fst (set_init_file None st) = Return tt /\
  init_file (self (snd (set_init_file None st))) = Some Demo.init_py.
Proof.
  cbv zeta. split; [reflexivity|].
  pose proof (init_file_search
                (mkState (mkModule (Some Demo.home_dir) None None [] [])
                         Demo.bare Demo.disk [])
                Demo.home_dir eq_refl) as H.
  cbv zeta in H. vm_compute fs_glob in H.
  rewrite H. split; reflexivity.
Defined.

(* ===================================================================== *)
(** ** Forwarding of sub-commands and the environment view *)
(* ===================================================================== *)

(** The dict built by [environ] holds a name exactly when the name is in
    the list and set in the environment, with the environment's value. *)
Lemma environ_of_lookup (env : gmap string string) (vars : list string)
    (name : string) :
  environ_of env vars !! name =
  if bool_decide (name ∈ vars) then env !! name else None.
Proof.
  unfold environ_of.
  assert (G : forall d : gmap string string,
             fold_left
               (fun d var => match env !! var with
                             | Some v => <[var := v]> d
                             | None => d
                             end) vars d !! name
             = match (if bool_decide (name ∈ vars) then env !! name else None) with
               | Some v => Some v
               | None => d !! name
               end).
  { induction vars as [|x vars IH]; intros d.
    - reflexivity.
    - cbn [fold_left]. rewrite IH.
      destruct (decide (name = x)) as [-> | Hne].
      + rewrite (bool_decide_eq_true_2 (x ∈ x :: vars)) by apply list_elem_of_here.
        case_bool_decide.
        * destruct (env !! x); reflexivity.
        * destruct (env !! x) eqn:E; [apply lookup_insert_eq | reflexivity].
      + assert (Hiff : name ∈ x :: vars <-> name ∈ vars).
        { rewrite elem_of_cons. tauto. }
        rewrite (bool_decide_ext _ _ Hiff).
        destruct (if bool_decide (name ∈ vars) then env !! name else None);
          [reflexivity|].
        destruct (env !! x); [apply lookup_insert_ne; congruence | reflexivity]. }
  rewrite G, lookup_empty.
  destruct (if bool_decide (name ∈ vars) then env !! name else None); reflexivity.
Qed.

(** C6: in every state, [environ] returns a dict that maps a name to a
    value exactly when the name is in [envinronment_variables] and the
    process environment holds that value for it; the state is left as
    it was. *)
Theorem environ_view (st : State) :
  exists d : gmap string string,
    environ st = (Return d, st) /\
    forall name value,
      d !! name = Some value <->
      name ∈ envinronment_variables (self st) /\
      os_environ (proc st) !! name = Some value.
Proof.
  exists (environ_of (os_environ (proc st)) (envinronment_variables (self st))).
  split; [reflexivity|].
  intros name value. rewrite environ_of_lookup.
  case_bool_decide; [tauto|].
  split; [discriminate | tauto].
Qed.

Section Forwarding.

Variable py_call :
  pyval -> list pyval -> list (string * pyval) -> Process ->
  Process * outcome pyval.
Variable object_attrs : list string.

Lemma is_member_false (s : Module) (name : string) :
  is_member object_attrs s name = false ->
  String.eqb name "environ" = false /\
  instance_attr s name = None /\
  class_attr object_attrs s name = None.
Proof.
  unfold is_member. intros H.
  apply orb_false_elim in H as [H Hc].
  apply orb_false_elim in H as [He Hi].
  apply bool_decide_eq_false_1 in Hi, Hc.
  split; [exact He|]. split.
  - destruct (instance_attr s name); [|reflexivity].
    exfalso. apply Hi. eexists. reflexivity.
  - destruct (class_attr object_attrs s name); [|reflexivity].
    exfalso. apply Hc. eexists. reflexivity.
Qed.

(** C5: a name that is neither in [sub_commands] nor a member of the
    instance cannot be accessed: the access raises [AttributeError] with
    the message "Module has no such attribute <name>". The state after the
    access is the state before it, so its trace has no new [Call]: the
    dispatcher was not invoked. *)
Theorem unknown_name_raises (st : State) (name : string) :
  name ∉ sub_commands (self st) ->
  is_member object_attrs (self st) name = false ->
  getattribute object_attrs name st =
    (Raise (AttributeError ("Module has no such attribute " ++ name)), st).
Proof.
  intros Hnot Hmem.
  apply is_member_false in Hmem as (He & Hi & Hc).
  unfold getattribute, bind, get_self. rewrite He, Hi, Hc.
  unfold __getattr__, bind, get_self.
  rewrite bool_decide_eq_false_2 by exact Hnot.
  reflexivity.
Qed.

(** A member of the instance is what the access yields, in or out of
    [sub_commands]: never a wrapper. *)
Lemma member_is_not_forwarded (st : State) (name : string) :
  is_member object_attrs (self st) name = true ->
  forall (w : string) (st' : State),
    getattribute object_attrs name st <> (Return (AWrapper w), st').
Proof.
  intros Hmem w st'. unfold getattribute, bind, get_self.
  unfold is_member in Hmem.
  destruct (String.eqb name "environ"); [discriminate|].
  cbn [orb] in Hmem.
  destruct (instance_attr (self st) name) as [a|] eqn:Hi.
  - unfold instance_attr in Hi.
    repeat match type of Hi with
           | (if ?b then _ else _) = _ => destruct b
           end;
      try discriminate Hi;
      match type of Hi with
      | _ <$> ?o = _ => destruct o; inversion Hi; discriminate
      end.
  - destruct (class_attr object_attrs (self st) name) as [a|] eqn:Hc.
    + unfold class_attr in Hc.
      repeat match type of Hc with
             | (if ?b then _ else _) = _ => destruct b
             end;
        inversion Hc; discriminate.
    + exfalso. rewrite orb_false_l in Hmem.
      apply bool_decide_eq_true_1 in Hmem. destruct Hmem as [? ?].
      discriminate.
Qed.

(** C1, amended: for a name in [sub_commands] that is not a member of
    the instance, the access returns the wrapper for that name and changes
    nothing; and a call of that wrapper, in any later state in which
    [self.module] is [f], is one call of [f] with the name as first
    positional argument, then the caller's positional arguments in order,
    and the caller's keyword arguments; what [f] returns or raises is what
    the wrapper returns or raises. *)
Theorem known_name_forwards (st : State) (name : string) :
  name ∈ sub_commands (self st) ->
  is_member object_attrs (self st) name = false ->
  getattribute object_attrs name st = (Return (AWrapper name), st) /\
  forall (st2 : State) (f : pyval) (args : list pyval)
         (kwargs : list (string * pyval)),
    module (self st2) = Some f ->
    wrapper py_call name args kwargs st2 =
      (snd (py_call f (PyStr name :: args) kwargs (proc st2)),
       mkState (self st2)
               (fst (py_call f (PyStr name :: args) kwargs (proc st2)))
               (files st2)
               (trace st2 ++ [Call f (PyStr name :: args) kwargs])).
Proof.
  intros Hin Hmem.
  apply is_member_false in Hmem as (He & Hi & Hc). split.
  - unfold getattribute, bind, get_self. rewrite He, Hi, Hc.
    unfold __getattr__, bind, get_self.
    rewrite bool_decide_eq_true_2 by exact Hin.
    reflexivity.
  - intros st2 f args kwargs Hf.
    unfold wrapper, bind, get_self. rewrite Hf.
    unfold call, bind, log. cbn [proc self files trace].
    destruct (py_call f (PyStr name :: args) kwargs (proc st2)); reflexivity.
Qed.

End Forwarding.

(** C1, as stated, fails for a name that is also a member of the
    instance. After parsing a manual whose sub-commands section lists
    [environ], the name is in [sub_commands], and [m.environ] is still
    the property: a dict, not a forwarding callable. *)
Lemma sub_command_name_shadowed :
  ~ (forall (object_attrs : list string) (st : State) (name : string),
        name ∈ sub_commands (self st) ->
        exists st', getattribute object_attrs name st = (Return (AWrapper name), st')).
Proof.
  intros claim.
  set (st := snd (get_sub_commands (Some Demo.man_odd) Demo.ready)).
  destruct (claim Demo.python_object_attrs st "environ") as (st' & H).
  - vm_compute. apply list_elem_of_here.
  - unfold getattribute, bind, get_self in H. cbn in H. discriminate H.
Qed.

Lemma unknown_name_raises_witness :
  ("frobnicate" ∉ sub_commands (self Demo.ready)) /\
  is_member Demo.python_object_attrs (self Demo.ready) "frobnicate" = false /\
  getattribute Demo.python_object_attrs "frobnicate" Demo.ready =
    (Raise (AttributeError "Module has no such attribute frobnicate"),
     Demo.ready).
Proof.
  assert (H1 : "frobnicate" ∉ sub_commands (self Demo.ready)).
  { apply (bool_decide_eq_false_1 _). vm_compute. reflexivity. }
  assert (H2 : is_member Demo.python_object_attrs (self Demo.ready)
                 "frobnicate" = false).
  { vm_compute. reflexivity. }
  split; [exact H1|]. split; [exact H2|].
  exact (unknown_name_raises Demo.python_object_attrs Demo.ready
           "frobnicate" H1 H2).
Defined.

Lemma known_name_forwards_witness :
  ("load" ∈ sub_commands (self Demo.ready)) /\
  is_member Demo.python_object_attrs (self Demo.ready) "load" = false /\
  getattribute Demo.python_object_attrs "load" Demo.ready =
    (Return (AWrapper "load"), Demo.ready) /\
  fst (wrapper Demo.tiny_call "load" [PyStr "gcc"] [] Demo.ready) =
    Return (PyStr "load") /\
  trace (snd (wrapper Demo.tiny_call "load" [PyStr "gcc"] [] Demo.ready)) =
    (trace Demo.ready ++ [Call (PyFunction 0) [PyStr "load"; PyStr "gcc"] []])%list.
Proof.
  assert (H1 : "load" ∈ sub_commands (self Demo.ready)).
  { apply (bool_decide_eq_true_1 _). vm_compute. reflexivity. }
  assert (H2 : is_member Demo.python_object_attrs (self Demo.ready) "load"
               = false).
  { vm_compute. reflexivity. }
  destruct (known_name_forwards Demo.tiny_call Demo.python_object_attrs
              Demo.ready "load" H1 H2) as [Hget Hcall].
  split; [exact H1|]. split; [exact H2|]. split; [exact Hget|].
  rewrite (Hcall Demo.ready (PyFunction 0) [PyStr "gcc"] [] eq_refl).
  split; reflexivity.
Defined.

(* ===================================================================== *)
(** ** Construction *)
(* ===================================================================== *)

Lemma bind_Return {A B : Type} (m : M A) (k : A -> M B) (st : State)
    (b : B) (st' : State) :
  bind m k st = (Return b, st') ->
  exists a st1, m st = (Return a, st1) /\ k a st1 = (Return b, st').
Proof.
  unfold bind. destruct (m st) as [[a | e] st1]; intros H.
  - exists a, st1. split; [reflexivity | exact H].
  - discriminate H.
Qed.

(** *** Computations that leave [self.modules_home] alone *)

Lemma keeps_ret {A : Type} (a : A) : keeps_home (ret a).
Proof. intros st. reflexivity. Qed.

Lemma keeps_raise {A : Type} (e : exn) : keeps_home (@raise A e).
Proof. intros st. reflexivity. Qed.

Lemma keeps_bind {A B : Type} (m : M A) (k : A -> M B) :
  keeps_home m -> (forall a, keeps_home (k a)) -> keeps_home (bind m k).
Proof.
  intros Hm Hk st. unfold bind. specialize (Hm st).
  destruct (m st) as [[a | e] st1]; cbn [snd] in *.
  - rewrite Hk. exact Hm.
  - exact Hm.
Qed.

Lemma keeps_get_self : keeps_home get_self.
Proof. intros st. reflexivity. Qed.

Lemma keeps_get_proc : keeps_home get_proc.
Proof. intros st. reflexivity. Qed.

Lemma keeps_log (ev : event) : keeps_home (log ev).
Proof. intros st. reflexivity. Qed.

Lemma keeps_assign_init_file (p : path) : keeps_home (assign_init_file p).
Proof. intros st. reflexivity. Qed.

Lemma keeps_assign_module (v : pyval) : keeps_home (assign_module v).
Proof. intros st. reflexivity. Qed.

Lemma keeps_assign_sub_commands (l : list string) :
  keeps_home (assign_sub_commands l).
Proof. intros st. reflexivity. Qed.

Lemma keeps_assign_envinronment_variables (l : list string) :
  keeps_home (assign_envinronment_variables l).
Proof. intros st. reflexivity. Qed.

Lemma keeps_exists (p : path) : keeps_home (exists_ p).
Proof. intros st. reflexivity. Qed.

Lemma keeps_glob (d : path) (pattern : string) : keeps_home (glob d pattern).
Proof. intros st. reflexivity. Qed.

Lemma keeps_open_read (p : path) : keeps_home (open_read p).
Proof.
  intros st. unfold open_read, bind, log. cbn [files].
  destruct (fs_read (files st) p); reflexivity.
Qed.

Create HintDb keeps.
#[local] Hint Resolve keeps_ret keeps_raise keeps_get_self keeps_get_proc
  keeps_log keeps_assign_init_file keeps_assign_module
  keeps_assign_sub_commands keeps_assign_envinronment_variables
  keeps_exists keeps_glob keeps_open_read : keeps.

(** Split a computation along its binds and its case distinctions. *)
Ltac keeps :=
  repeat first
    [ solve [auto with keeps]
    | apply keeps_bind; [|intros]
    | match goal with
      | |- keeps_home (match ?x with _ => _ end) => destruct x
      end ].

Lemma keeps_getattr (_name : string) : keeps_home (__getattr__ _name).
Proof. unfold __getattr__. keeps. Qed.
#[local] Hint Resolve keeps_getattr : keeps.

Lemma keeps_self_modules_home (e : exn) : keeps_home (self_modules_home e).
Proof. unfold self_modules_home. keeps. Qed.

Lemma keeps_self_init_file (e : exn) : keeps_home (self_init_file e).
Proof. unfold self_init_file. keeps. Qed.
#[local] Hint Resolve keeps_self_modules_home keeps_self_init_file : keeps.

Lemma keeps_set_init_file (f : option path) : keeps_home (set_init_file f).
Proof. unfold set_init_file. keeps. Qed.

Lemma keeps_manual (f : option path) : keeps_home (manual f).
Proof. unfold manual. keeps. Qed.
#[local] Hint Resolve keeps_set_init_file keeps_manual : keeps.

Lemma keeps_get_sub_commands (f : option path) :
  keeps_home (get_sub_commands f).
Proof. unfold get_sub_commands. keeps. Qed.

Lemma keeps_get_environment_variables (f : option path) :
  keeps_home (get_environment_variables f).
Proof. unfold get_environment_variables. keeps. Qed.
#[local] Hint Resolve keeps_get_sub_commands
  keeps_get_environment_variables : keeps.

Lemma keeps_parse_man_file (f : option path) : keeps_home (parse_man_file f).
Proof. unfold parse_man_file. keeps. Qed.

Lemma keeps_environ : keeps_home environ.
Proof. unfold environ. keeps. Qed.
#[local] Hint Resolve keeps_parse_man_file keeps_environ : keeps.

(** Project the fields of the states and instances built so far. *)
Ltac fields :=
  cbn [self proc files trace modules_home Easymod.init_file module
       sub_commands envinronment_variables negb fst snd].

Section Construction.

Variable py_exec : string -> Process -> Process * option exn.

Lemma keeps_exec (source : string) : keeps_home (exec py_exec source).
Proof.
  intros st. unfold exec, bind, log. cbn [proc self files trace].
  destruct (py_exec source (proc st)) as [p' [e|]]; reflexivity.
Qed.

(** With no [home] and [MODULESHOME] unset, [__init__] raises at its
    first statement, before [set_init_file] is reached. *)
Lemma construct_home_unset (script : option path) (st : State) :
  os_environ (proc st) !! "MODULESHOME" = None ->
  construct py_exec None script st =
    (Raise (ValueError home_unset_message),
     mkState blank (proc st) (files st) (trace st)).
Proof.
  intros H. unfold construct, __init__, bind, put_self, get_proc.
  cbn [proc]. rewrite H. reflexivity.
Qed.

(** C8: a construction with no home given, in a process in which
    [MODULESHOME] is unset, raises [ValueError]; the message names the
    variable and tells the caller to pass the home directory; and the
    trace is the one before the call, so the file system has not been
    touched. *)
Theorem home_unset_is_an_error (script : option path) (st : State) :
  os_environ (proc st) !! "MODULESHOME" = None ->
  exists st',
    construct py_exec None script st =
      (Raise (ValueError
                "Cannot automatically set modules_home. Environment variable MODULESHOME unset. Pass module home directory to Module"),
       st') /\
    trace st' = trace st /\
    occurs "MODULESHOME" home_unset_message /\
    occurs "Pass module home directory to Module" home_unset_message.
Proof.
  intros H. eexists. split; [apply construct_home_unset, H|].
  split; [reflexivity|]. split.
  - exists "Cannot automatically set modules_home. Environment variable ",
           " unset. Pass module home directory to Module".
    reflexivity.
  - exists "Cannot automatically set modules_home. Environment variable MODULESHOME unset. ",
           "".
    reflexivity.
Qed.

(** C10: an init script given explicitly, even one that exists, does not
    stand in for the home: with no home given and [MODULESHOME] unset the
    construction raises the same [ValueError]. The trace is unchanged, so
    the given path was not even tested for existence, and [init_file] was
    not assigned. *)
Theorem explicit_init_file_needs_home (f : path) (st : State) :
  fs_exists (files st) f = true ->
  os_environ (proc st) !! "MODULESHOME" = None ->
  exists st',
    construct py_exec None (Some f) st =
      (Raise (ValueError home_unset_message), st') /\
    trace st' = trace st /\
    init_file (self st') = None.
Proof.
  intros _ H. eexists. split; [apply construct_home_unset, H|].
  split; reflexivity.
Qed.

(** The run of [__init__] up to and including the execution of the init
    script, when nothing on the way raises. *)
Lemma construct_runs_script (home script : option path) (st : State)
    (h f : path) (source : string) (p' : Process) :
  (home = Some h \/
   home = None /\ os_environ (proc st) !! "MODULESHOME" = Some h) ->
  (script = Some f /\ fs_exists (files st) f = true \/
   script = None /\ fs_glob (files st) h "**/init/*python*.py" = [f]) ->
  fs_read (files st) f = Some source ->
  py_exec source (proc st) = (p', None) ->
  exists tr,
    construct py_exec home script st =
      match py_globals p' !! "module" with
      | Some m => assign_module m
      | None =>
          raise (EnvironmentError
                   "The module environment could not be initialised.")
      end
        (mkState (mkModule (Some h) (Some f) None default_sub_commands
                           default_envinronment_variables)
                 p' (files st) tr).
Proof.
  intros Hhome Hinit Hread Hexec.
  unfold construct, __init__.
  unfold bind at 1. cbn [put_self].
  unfold bind at 1.
  assert (Hstep1 :
    (match home with
     | Some h0 => assign_modules_home (Path h0)
     | None =>
         bind get_proc (fun p =>
           match os_environ p !! "MODULESHOME" with
           | Some v => assign_modules_home (Path v)
           | None => raise (ValueError home_unset_message)
           end)
     end) (mkState blank (proc st) (files st) (trace st))
    = (Return tt,
       mkState (mkModule (Some h) None None default_sub_commands
                         default_envinronment_variables)
               (proc st) (files st) (trace st))).
  { destruct Hhome as [-> | [-> Henv]].
    - reflexivity.
    - unfold bind, get_proc. cbn [proc]. rewrite Henv. reflexivity. }
  rewrite Hstep1. clear Hstep1.
  destruct Hinit as [[-> Hex] | [-> Hglob]].
  - unfold set_init_file, assign_init_file, self_init_file, exists_,
      open_read, exec, bind, get_self, put_self, get_proc, log, ret, Path.
    fields. rewrite Hex. fields. rewrite Hread. fields. rewrite Hexec.
    fields. eexists. reflexivity.
  - unfold set_init_file, assign_init_file, self_init_file, self_modules_home,
      glob, open_read, exec, bind, get_self, put_self, get_proc, log, ret.
    fields. rewrite Hglob. cbn [length Nat.eqb Nat.ltb Nat.leb].
    unfold assign_init_file, bind, get_self, put_self. fields.
    rewrite Hread. fields. rewrite Hexec.
    fields. eexists. reflexivity.
Qed.

(** C7, amended: once the home and the init script are settled and the
    script has been read and executed without an exception, the outcome is
    decided by the entry [module] of the shared globals as the execution
    leaves them, whoever put it there and whatever value it is. No entry:
    the construction raises [EnvironmentError] with the message "The module
    environment could not be initialised.". An entry: the construction
    returns and [self.module] is that entry. *)
Theorem dispatcher_from_globals (home script : option path) (st : State)
    (h f : path) (source : string) (p' : Process) :
  (home = Some h \/
   home = None /\ os_environ (proc st) !! "MODULESHOME" = Some h) ->
  (script = Some f /\ fs_exists (files st) f = true \/
   script = None /\ fs_glob (files st) h "**/init/*python*.py" = [f]) ->
  fs_read (files st) f = Some source ->
  py_exec source (proc st) = (p', None) ->
  match py_globals p' !! "module" with
  | None =>
      exists st',
        construct py_exec home script st =
          (Raise (EnvironmentError
                    "The module environment could not be initialised."),
           st')
  | Some m =>
      exists st',
        construct py_exec home script st = (Return tt, st') /\
        self st' =
          mkModule (Some h) (Some f) (Some m) default_sub_commands
                   default_envinronment_variables /\
        proc st' = p'
  end.
Proof.
  intros Hhome Hinit Hread Hexec.
  destruct (construct_runs_script home script st h f source p'
              Hhome Hinit Hread Hexec) as [tr ->].
  destruct (py_globals p' !! "module") as [m|]; eexists.
  - split; [reflexivity|]. split; reflexivity.
  - reflexivity.
Qed.

End Construction.

#[local] Hint Resolve keeps_exec : keeps.

(* ===================================================================== *)
(** ** The home directory over the life of an instance *)
(* ===================================================================== *)

(** C3, as stated, fails: [__init__] stores the home without looking at
    the file system. With the init script given explicitly, a home that
    does not exist is accepted and the construction returns. *)
Lemma modules_home_not_validated :
  ~ (forall (py_exec : string -> Process -> Process * option exn)
            (home script : option path) (st st' : State),
        construct py_exec home script st = (Return tt, st') ->
        exists h, modules_home (self st') = Some h /\
                  fs_exists (files st') h = true).
Proof.
  intros claim.
  destruct (claim Demo.tiny_exec (Some "/nowhere") (Some Demo.init_py)
                  (Demo.start Demo.bare Demo.disk)
                  (snd (construct Demo.tiny_exec (Some "/nowhere")
                          (Some Demo.init_py)
                          (Demo.start Demo.bare Demo.disk))))
    as (h & Hh & Hex).
  - reflexivity.
  - vm_compute in Hh. injection Hh as <-.
    vm_compute in Hex. discriminate Hex.
Qed.

Section Lifetime.

Variable py_exec : string -> Process -> Process * option exn.
Variable py_call :
  pyval -> list pyval -> list (string * pyval) -> Process ->
  Process * outcome pyval.
Variable object_attrs : list string.

Lemma keeps_call (f : pyval) (args : list pyval)
    (kwargs : list (string * pyval)) :
  keeps_home (call py_call f args kwargs).
Proof.
  intros st. unfold call, bind, log. fields.
  destruct (py_call f args kwargs (proc st)); reflexivity.
Qed.

Lemma keeps_wrapper (_name : string) (args : list pyval)
    (kwargs : list (string * pyval)) :
  keeps_home (wrapper py_call _name args kwargs).
Proof.
  unfold wrapper. apply keeps_bind; [auto with keeps|]. intros s.
  destruct (module s); [apply keeps_call | keeps].
Qed.

Lemma keeps_getattribute (name : string) :
  keeps_home (getattribute object_attrs name).
Proof. unfold getattribute. keeps. Qed.

Lemma perform_keeps_home (op : operation) (st : State) :
  modules_home (self (perform py_call object_attrs op st)) =
  modules_home (self st).
Proof.
  destruct op; unfold perform, forget.
  - apply keeps_set_init_file.
  - apply keeps_parse_man_file.
  - apply keeps_get_sub_commands.
  - apply keeps_get_environment_variables.
  - apply keeps_getattribute.
  - apply keeps_wrapper.
  - apply keeps_environ.
Qed.

Lemma session_keeps_home (ops : list operation) (st : State) :
  modules_home (self (session py_call object_attrs ops st)) =
  modules_home (self st).
Proof.
  revert st. induction ops as [|op ops IH]; intros st; [reflexivity|].
  unfold session in *. cbn [fold_left]. rewrite IH.
  apply perform_keeps_home.
Qed.

End Lifetime.

(* ===================================================================== *)
(** ** The theorems at work in the small world *)
(* ===================================================================== *)

Lemma home_unset_is_an_error_witness :
  os_environ (proc (Demo.start Demo.bare Demo.disk)) !! "MODULESHOME" = None /\
  exists st',
    construct Demo.tiny_exec None None (Demo.start Demo.bare Demo.disk) =
      (Raise (ValueError
                "Cannot automatically set modules_home. Environment variable MODULESHOME unset. Pass module home directory to Module"),
       st') /\
    trace st' = trace (Demo.start Demo.bare Demo.disk).
Proof.
  split; [reflexivity|].
  destruct (home_unset_is_an_error Demo.tiny_exec None
              (Demo.start Demo.bare Demo.disk) eq_refl)
    as (st' & Hrun & Htrace & _).
  exists st'. split; [exact Hrun | exact Htrace].
Defined.

Lemma explicit_init_file_needs_home_witness :
  fs_exists (files (Demo.start Demo.bare Demo.disk)) Demo.init_py = true /\
  os_environ (proc (Demo.start Demo.bare Demo.disk)) !! "MODULESHOME" = None /\
  exists st',
    construct Demo.tiny_exec None (Some Demo.init_py)
      (Demo.start Demo.bare Demo.disk) =
      (Raise (ValueError home_unset_message), st') /\
    trace st' = trace (Demo.start Demo.bare Demo.disk) /\
    init_file (self st') = None.
Proof.
  split; [reflexivity|]. split; [reflexivity|].
  exact (explicit_init_file_needs_home Demo.tiny_exec Demo.init_py
           (Demo.start Demo.bare Demo.disk) eq_refl eq_refl).
Defined.

(** The two outcomes of the bootstrap: the script that defines [module],
    found by the search under [MODULESHOME], and the empty script, given
    explicitly, in a process whose globals hold no [module]. *)
Lemma dispatcher_from_globals_witness :
  (exists st',
     construct Demo.tiny_exec None None (Demo.start Demo.with_home Demo.disk) =
       (Return tt, st') /\
     self st' =
       mkModule (Some Demo.home_dir) (Some Demo.init_py) (Some (PyFunction 0))
                default_sub_commands default_envinronment_variables /\
     proc st' = fst (Demo.tiny_exec Demo.script_def Demo.with_home)) /\
  (exists st',
     construct Demo.tiny_exec (Some Demo.home_dir) (Some Demo.empty_py)
       (Demo.start Demo.bare Demo.disk) =
       (Raise (EnvironmentError
                 "The module environment could not be initialised."),
        st')).
Proof.
  split.
  - exact (dispatcher_from_globals Demo.tiny_exec None None
             (Demo.start Demo.with_home Demo.disk)
             Demo.home_dir Demo.init_py Demo.script_def
             (fst (Demo.tiny_exec Demo.script_def Demo.with_home))
             (or_intror (conj eq_refl eq_refl))
             (or_intror (conj eq_refl eq_refl))
             eq_refl eq_refl).
  - exact (dispatcher_from_globals Demo.tiny_exec (Some Demo.home_dir)
             (Some Demo.empty_py) (Demo.start Demo.bare Demo.disk)
             Demo.home_dir Demo.empty_py "" Demo.bare
             (or_introl eq_refl)
             (or_introl (conj eq_refl eq_refl))
             eq_refl eq_refl).
Defined.

(* ===================================================================== *)
(** ** The sub-commands section *)
(* ===================================================================== *)

Lemma len_append (a b : string) : len (a ++ b) = len a + len b.
Proof.
  induction a as [|c a IH].
  - change ("" ++ b) with b. unfold len. simpl. lia.
  - change (String c a ++ b) with (String c (a ++ b)).
    rewrite !len_String, IH. lia.
Qed.

Lemma str_drop_append (a b : string) : str_drop (String.length a) (a ++ b) = b.
Proof.
  induction a as [|c a IH]; [destruct b; reflexivity|].
  change (String c a ++ b) with (String c (a ++ b)). exact IH.
Qed.

Lemma str_take_append (n : nat) (a b : string) :
  (n <= String.length a)%nat -> str_take n (a ++ b) = str_take n a.
Proof.
  revert a. induction n as [|n IH]; intros a H; [reflexivity|].
  destruct a as [|c a]; [simpl in H; lia|].
  change (String c a ++ b) with (String c (a ++ b)).
  simpl. rewrite IH; [reflexivity | simpl in H; lia].
Qed.

(** The text that [get_sub_commands] hands to the pattern. Let the manual
    be [pre ++ sec ++ suf], the header [.SS Module Sub\-Commands] be found
    at the start of [sec], and the next [.SS] after it at the start of
    [suf]. Then the bounds computed by the source select [sec] without its
    last two characters: [end] is [start + r + 1] where the next header
    is at [start + 3 + r]. *)
Lemma sub_commands_section_two_short (pre sec suf : string) :
  let man := pre ++ sec ++ suf in
  find man ".SS Module Sub\-Commands" = len pre ->
  2 <= len sec ->
  find (slice_from man (len pre + 3)) ".SS" = len sec - 3 ->
  let start := find man ".SS Module Sub\-Commands" in
  let end_ := start + find (slice_from man (start + 3)) ".SS" + 1 in
  slice man start end_ = str_take (String.length sec - 2) sec.
Proof.
  intros man Hstart Hsec Hnext. cbv zeta. fold man.
  rewrite Hstart, Hnext. unfold slice.
  assert (Hlen : len man = len pre + len sec + len suf).
  { unfold man. rewrite !len_append. lia. }
  pose proof (len_nonneg pre). pose proof (len_nonneg suf).
  assert (Ha : clamp (len man) (len pre) = len pre).
  { unfold clamp. destruct (len pre <? 0) eqn:E; [lia|]. lia. }
  assert (Hb : clamp (len man) (len pre + (len sec - 3) + 1)
               = len pre + len sec - 2).
  { unfold clamp.
    destruct (len pre + (len sec - 3) + 1 <? 0) eqn:E; [lia|]. lia. }
  rewrite Ha, Hb.
  replace (Z.to_nat (len pre)) with (String.length pre) by (unfold len; lia).
  replace (Z.to_nat (len pre + len sec - 2 - len pre))
    with (String.length sec - 2)%nat by (unfold len in *; lia).
  unfold man. rewrite str_drop_append.
  apply str_take_append. lia.
Qed.

(** What [get_sub_commands] stores for such a manual: the matches of the
    pattern in [sec] without its last two characters. *)
Lemma get_sub_commands_short_section (man_file : option path)
    (st st1 : State) (pre sec suf : string) :
  manual man_file st = (Return (pre ++ sec ++ suf), st1) ->
  find (pre ++ sec ++ suf) ".SS Module Sub\-Commands" = len pre ->
  2 <= len sec ->
  find (slice_from (pre ++ sec ++ suf) (len pre + 3)) ".SS" = len sec - 3 ->
  get_sub_commands man_file st =
    (Return tt,
     mkState (mkModule (modules_home (self st1)) (init_file (self st1))
                       (module (self st1))
                       (findall re_sub_command
                          (str_take (String.length sec - 2) sec))
                       (envinronment_variables (self st1)))
             (proc st1) (files st1) (trace st1)).
Proof.
  intros Hman Hstart Hsec Hnext.
  unfold get_sub_commands, bind. rewrite Hman.
  rewrite (sub_commands_section_two_short pre sec suf Hstart Hsec Hnext).
  reflexivity.
Qed.

(** C9 fails on the code for a section whose last entry is directly
    followed by the next header. The manual [Demo.text_tight] has a
    sub-commands section with the entries [A] and [B-C], closed by the
    header [.SS Modulefiles] on the next line; the section that reaches
    the pattern ends in [\fBB-C\f], and [get_sub_commands] stores [A]
    alone. *)
Theorem last_sub_command_lost :
  let st := Demo.start Demo.bare Demo.disk in
  fst (get_sub_commands (Some Demo.man_tight) st) = Return tt /\
  sub_commands (self (snd (get_sub_commands (Some Demo.man_tight) st))) = ["A"].
Proof. cbv zeta. split; vm_compute; reflexivity. Qed.

(** With a line of description between the last entry and the next
    header the two lost characters belong to the description, and both
    entries are found. *)
Example both_sub_commands_found :
  sub_commands
    (self (snd (get_sub_commands (Some Demo.man_roomy)
                  (Demo.start Demo.bare Demo.disk)))) = ["A"; "B-C"].
Proof. vm_compute. reflexivity. Qed.

(** The section of [Demo.text_tight] as the pattern sees it. *)
Example tight_section_as_sliced :
  let man := Demo.text_tight in
  let start := find man ".SS Module Sub\-Commands" in
  let end_ := start + find (slice_from man (start + 3)) ".SS" + 1 in
  slice man start end_ =
    ".SS Module Sub\-Commands" ++ nl ++ ".sp" ++ nl ++ "\fBA\fP" ++ nl ++
    ".sp" ++ nl ++ "\fBB-C\f".
Proof. vm_compute. reflexivity. Qed.

(** Two candidates for the init script: the search raises and names
    both. *)
Example two_candidates :
  fst (set_init_file None
         (mkState (mkModule (Some "/usr/share/modules") None None [] [])
                  Demo.bare Demo.disk_two [])) =
  Raise (ValueError
           ("Multiple possible Module initialisation files found" ++ nl ++
            "/usr/share/modules/init/python.py, /usr/share/modules/old/init/python3.py")).
Proof. vm_compute. reflexivity. Qed.

(** The text primitives on a few inputs, as Python answers them. *)
Example find_found : find "hello world" "o w" = 4.
Proof. reflexivity. Qed.

Example find_missing : find "hello" "z" = -1.
Proof. reflexivity. Qed.

Example slice_negative_bounds : slice "hello" 1 (-1) = "ell".
Proof. reflexivity. Qed.

Example slice_crossed_bounds : slice "hello" (-1) 2 = "".
Proof. reflexivity. Qed.

Example findall_two_entries :
  findall re_sub_command
    ("x.sp" ++ nl ++ "\fBload\fP" ++ nl ++ ".sp" ++ nl ++ "\fBinit-add\fP tail")
  = ["load"; "init-add"].
Proof. vm_compute. reflexivity. Qed.

(** The class [[A-Z|-|_]] has no hyphen and no digit. *)
Example env_var_pattern_has_no_hyphen :
  findall re_env_var (".sp" ++ nl ++ "\fBMODULES-CMD\fP") = [] /\
  findall re_env_var (".sp" ++ nl ++ "\fBMODULES_CMD\fP") = ["MODULES_CMD"].
Proof. split; vm_compute; reflexivity. Qed.

(** C7, as stated, fails: the test is on the shared globals, not on
    what the script defines. The globals are those of [easymod.core],
    shared by all instances of a process: after one construction has left
    a [module] there, a second construction whose script is empty, and so
    defines nothing, raises no [EnvironmentError]: it returns, with the
    function of the earlier script as its dispatcher. *)
Example dispatcher_left_by_an_earlier_script :
  let st := mkState blank (proc Demo.ready) Demo.disk [] in
  let st' := snd (construct Demo.tiny_exec (Some Demo.home_dir)
                    (Some Demo.empty_py) st) in
  fst (construct Demo.tiny_exec (Some Demo.home_dir) (Some Demo.empty_py) st)
    = Return tt /\
  module (self st') = Some (PyFunction 0).
Proof. cbv zeta. split; vm_compute; reflexivity. Qed.

(* ===================================================================== *)
(** ** Further properties: the init script *)
(* ===================================================================== *)

(** [set_init_file(f)]: the assignment, then the test. *)
Lemma set_init_file_explicit (st : State) (f : path) :
  set_init_file (Some f) st =
    (if fs_exists (files st) f
     then Return tt
     else Raise (FileNotFoundError
                   ("Module initialisation file not found" ++ nl ++ f)),
     mkState (mkModule (modules_home (self st)) (Some f) (module (self st))
                       (sub_commands (self st))
                       (envinronment_variables (self st)))
             (proc st) (files st) (trace st ++ [FsExists f])).
Proof.
  unfold set_init_file, assign_init_file, self_init_file, exists_, bind,
    get_self, put_self, log, ret, raise, Path.
  fields. destruct (fs_exists (files st) f); reflexivity.
Qed.

(** X1: [set_init_file(f)] with a path given never searches: its one
    outside call is the test whether [f] exists. It assigns [init_file]
    before it tests: the call returns when the path exists and raises
    [FileNotFoundError], with the path in the message, when it does not,
    and in both cases [init_file] is [f] afterwards while the rest of the
    instance is as before. *)
Theorem explicit_init_file_assigned_then_tested (st : State) (f : path) :
  let st' := snd (set_init_file (Some f) st) in
  fst (set_init_file (Some f) st) =
    (if fs_exists (files st) f
     then Return tt
     else Raise (FileNotFoundError
                   ("Module initialisation file not found" ++ nl ++ f))) /\
  init_file (self st') = Some f /\
  trace st' = (trace st ++ [FsExists f])%list /\
  modules_home (self st') = modules_home (self st) /\
  module (self st') = module (self st) /\
  capability_lists st' = capability_lists st.
Proof.
  cbv zeta. rewrite set_init_file_explicit. cbn [fst snd]. fields.
  repeat split.
Qed.

Section Bootstrap.

Variable py_exec : string -> Process -> Process * option exn.

(** [__init__] once the home is settled: the rest runs on an instance
    that has [modules_home] and nothing else. *)
Lemma construct_after_home (home script : option path) (st : State)
    (h : path) :
  (home = Some h \/
   home = None /\ os_environ (proc st) !! "MODULESHOME" = Some h) ->
  construct py_exec home script st =
    bind (set_init_file script) (fun _ =>
    bind (self_init_file not_a_path) (fun f =>
    bind (open_read f) (fun source =>
    bind (exec py_exec source) (fun _ =>
    bind get_proc (fun p =>
      match py_globals p !! "module" with
      | Some m => assign_module m
      | None =>
          raise (EnvironmentError
                   "The module environment could not be initialised.")
      end)))))
      (mkState (mkModule (Some h) None None default_sub_commands
                         default_envinronment_variables)
               (proc st) (files st) (trace st)).
Proof.
  intros Hhome. unfold construct, __init__.
  unfold bind at 1. cbn [put_self]. unfold bind at 1.
  destruct Hhome as [-> | [-> Henv]].
  - reflexivity.
  - unfold bind at 1, get_proc at 1. cbn [proc]. rewrite Henv. reflexivity.
Qed.

(** [__init__] up to the reading of the init script. *)
Lemma construct_reads_script (home script : option path) (st : State)
    (h f : path) :
  (home = Some h \/
   home = None /\ os_environ (proc st) !! "MODULESHOME" = Some h) ->
  (script = Some f /\ fs_exists (files st) f = true \/
   script = None /\ fs_glob (files st) h "**/init/*python*.py" = [f]) ->
  exists tr,
    (forall ev, ev ∈ tr -> ev = FsExists f \/
                           ev = FsGlob h "**/init/*python*.py" \/
                           ev = FsOpen f) /\
    construct py_exec home script st =
      match fs_read (files st) f with
      | None =>
          (Raise (OpenError f),
           mkState (mkModule (Some h) (Some f) None default_sub_commands
                             default_envinronment_variables)
                   (proc st) (files st) (trace st ++ tr))
      | Some source =>
          bind (exec py_exec source) (fun _ =>
          bind get_proc (fun p =>
            match py_globals p !! "module" with
            | Some m => assign_module m
            | None =>
                raise (EnvironmentError
                         "The module environment could not be initialised.")
            end))
            (mkState (mkModule (Some h) (Some f) None default_sub_commands
                               default_envinronment_variables)
                     (proc st) (files st) (trace st ++ tr))
      end.
Proof.
  intros Hhome Hinit. rewrite (construct_after_home _ _ _ _ Hhome).
  destruct Hinit as [[-> Hex] | [-> Hglob]].
  - exists [FsExists f; FsOpen f]. split.
    { intros ev Hev. apply elem_of_cons in Hev as [-> | Hev]; [tauto|].
      apply list_elem_of_singleton in Hev as ->. tauto. }
    unfold bind at 1. rewrite set_init_file_explicit.
    fields. rewrite Hex.
    unfold self_init_file, open_read, bind, get_self, log, ret.
    fields. rewrite <- app_assoc. cbn [app].
    destruct (fs_read (files st) f); reflexivity.
  - exists [FsGlob h "**/init/*python*.py"; FsOpen f]. split.
    { intros ev Hev. apply elem_of_cons in Hev as [-> | Hev]; [tauto|].
      apply list_elem_of_singleton in Hev as ->. tauto. }
    unfold set_init_file, assign_init_file, self_init_file, self_modules_home,
      glob, open_read, bind, get_self, put_self, log, ret.
    fields. rewrite Hglob. cbn [length Nat.eqb Nat.ltb Nat.leb].
    unfold assign_init_file, bind, get_self, put_self. fields.
    rewrite <- app_assoc. cbn [app].
    destruct (fs_read (files st) f); reflexivity.
Qed.

(** X2: a construction whose init script is given explicitly and does not
    exist raises [FileNotFoundError] with the path in the message. The only
    outside call is the test of that path: nothing is searched, opened or
    executed, and the process is as before. *)
Theorem construct_explicit_init_file_missing (home : option path)
    (st : State) (h f : path) :
  (home = Some h \/
   home = None /\ os_environ (proc st) !! "MODULESHOME" = Some h) ->
  fs_exists (files st) f = false ->
  exists st',
    construct py_exec home (Some f) st =
      (Raise (FileNotFoundError
                ("Module initialisation file not found" ++ nl ++ f)), st') /\
    trace st' = (trace st ++ [FsExists f])%list /\
    proc st' = proc st.
Proof.
  intros Hhome Hex. rewrite (construct_after_home _ _ _ _ Hhome).
  unfold bind at 1. rewrite set_init_file_explicit.
  fields. rewrite Hex. eexists. split; [reflexivity|]. split; reflexivity.
Qed.

(** X3: an exception raised by the init script leaves the construction as
    it is, not as an [EnvironmentError]: the entry [module] of the globals
    is not looked at, even when there is one, and what the script did to
    the process before it raised stays done. *)
Theorem script_exception_propagates (home script : option path) (st : State)
    (h f : path) (source : string) (p' : Process) (e : exn) :
  (home = Some h \/
   home = None /\ os_environ (proc st) !! "MODULESHOME" = Some h) ->
  (script = Some f /\ fs_exists (files st) f = true \/
   script = None /\ fs_glob (files st) h "**/init/*python*.py" = [f]) ->
  fs_read (files st) f = Some source ->
  py_exec source (proc st) = (p', Some e) ->
  exists st',
    construct py_exec home script st = (Raise e, st') /\
    proc st' = p' /\
    module (self st') = None.
Proof.
  intros Hhome Hinit Hread Hexec.
  destruct (construct_reads_script home script st h f Hhome Hinit)
    as (tr & _ & ->).
  rewrite Hread. unfold exec, bind, log. fields. rewrite Hexec.
  eexists. split; [reflexivity|]. split; reflexivity.
Qed.

(** X4: an init script that is located but cannot be opened or read stops
    the construction with the error of [open]; no script is executed and
    the process is as before. *)
Theorem unreadable_script_not_executed (home script : option path)
    (st : State) (h f : path) :
  (home = Some h \/
   home = None /\ os_environ (proc st) !! "MODULESHOME" = Some h) ->
  (script = Some f /\ fs_exists (files st) f = true \/
   script = None /\ fs_glob (files st) h "**/init/*python*.py" = [f]) ->
  fs_read (files st) f = None ->
  exists st' tr,
    construct py_exec home script st = (Raise (OpenError f), st') /\
    proc st' = proc st /\
    trace st' = (trace st ++ tr)%list /\
    forall source, Exec source ∉ tr.
Proof.
  intros Hhome Hinit Hread.
  destruct (construct_reads_script home script st h f Hhome Hinit)
    as (tr & Htr & ->).
  rewrite Hread. eexists. exists tr.
  split; [reflexivity|]. split; [reflexivity|]. split; [reflexivity|].
  intros source Hin.
  destruct (Htr _ Hin) as [H | [H | H]]; discriminate H.
Qed.

End Bootstrap.

(* ===================================================================== *)
(** ** Further properties: what the operations leave alone *)
(* ===================================================================== *)

Lemma unchanged_ret {A B : Type} (obs : State -> B) (a : A) :
  unchanged obs (ret a).
Proof. intros st. reflexivity. Qed.

Lemma unchanged_raise {A B : Type} (obs : State -> B) (e : exn) :
  unchanged obs (@raise A e).
Proof. intros st. reflexivity. Qed.

Lemma unchanged_bind {A A' B : Type} (obs : State -> B) (m : M A)
    (k : A -> M A') :
  unchanged obs m -> (forall a, unchanged obs (k a)) ->
  unchanged obs (bind m k).
Proof.
  intros Hm Hk st. unfold bind. specialize (Hm st).
  destruct (m st) as [[a | e] st1]; cbn [snd] in *.
  - rewrite Hk. exact Hm.
  - exact Hm.
Qed.

(** An observer that does not look at the trace is blind to the
    file-system calls. *)
Lemma unchanged_open_read {B : Type} (obs : State -> B) (p : path) :
  (forall st tr, obs (mkState (self st) (proc st) (files st) tr) = obs st) ->
  unchanged obs (open_read p).
Proof.
  intros Hobs st. unfold open_read, bind, log. fields.
  destruct (fs_read (files st) p); cbn [snd]; apply Hobs.
Qed.

Create HintDb unchanged.
#[local] Hint Resolve unchanged_ret unchanged_raise : unchanged.
#[local] Hint Extern 1 (unchanged _ (open_read _)) =>
  apply unchanged_open_read; intros; reflexivity : unchanged.

(** Split along binds and case distinctions; a primitive that computes
    is settled by evaluation. *)
Ltac settle :=
  repeat first
    [ solve [auto with unchanged]
    | solve [intros ?; reflexivity]
    | apply unchanged_bind; [|intros]
    | match goal with
      | |- unchanged _ (match ?x with _ => _ end) => destruct x
      end ].

Lemma getattr_pure {B : Type} (obs : State -> B) (_name : string) :
  unchanged obs (__getattr__ _name).
Proof. unfold __getattr__. settle. Qed.
#[local] Hint Resolve getattr_pure : unchanged.

Lemma environ_pure {B : Type} (obs : State -> B) : unchanged obs environ.
Proof. unfold environ. settle. Qed.
#[local] Hint Resolve environ_pure : unchanged.

Lemma getattribute_pure {B : Type} (obs : State -> B)
    (object_attrs : list string) (name : string) :
  unchanged obs (getattribute object_attrs name).
Proof. unfold getattribute. settle. Qed.

(** *** The dispatcher *)

Lemma set_init_file_keeps_dispatcher (f : option path) :
  unchanged dispatcher (set_init_file f).
Proof. unfold set_init_file, self_init_file, self_modules_home. settle. Qed.

Lemma manual_keeps_dispatcher (f : option path) :
  unchanged dispatcher (manual f).
Proof. unfold manual, self_modules_home. settle. Qed.
#[local] Hint Resolve set_init_file_keeps_dispatcher
  manual_keeps_dispatcher : unchanged.

Lemma parse_man_file_keeps_dispatcher (f : option path) :
  unchanged dispatcher (parse_man_file f).
Proof.
  unfold parse_man_file, get_sub_commands, get_environment_variables. settle.
Qed.

Lemma get_sub_commands_keeps_dispatcher (f : option path) :
  unchanged dispatcher (get_sub_commands f).
Proof. unfold get_sub_commands. settle. Qed.

Lemma get_environment_variables_keeps_dispatcher (f : option path) :
  unchanged dispatcher (get_environment_variables f).
Proof. unfold get_environment_variables. settle. Qed.

(** *** The process *)

Lemma set_init_file_keeps_process (f : option path) :
  unchanged proc (set_init_file f).
Proof. unfold set_init_file, self_init_file, self_modules_home. settle. Qed.

Lemma manual_keeps_process (f : option path) : unchanged proc (manual f).
Proof. unfold manual, self_modules_home. settle. Qed.
#[local] Hint Resolve set_init_file_keeps_process
  manual_keeps_process : unchanged.

Lemma parse_man_file_keeps_process (f : option path) :
  unchanged proc (parse_man_file f).
Proof.
  unfold parse_man_file, get_sub_commands, get_environment_variables. settle.
Qed.

Lemma get_sub_commands_keeps_process (f : option path) :
  unchanged proc (get_sub_commands f).
Proof. unfold get_sub_commands. settle. Qed.

Lemma get_environment_variables_keeps_process (f : option path) :
  unchanged proc (get_environment_variables f).
Proof. unfold get_environment_variables. settle. Qed.

(** *** The capability lists *)

Lemma set_init_file_keeps_lists (f : option path) :
  unchanged capability_lists (set_init_file f).
Proof. unfold set_init_file, self_init_file, self_modules_home. settle. Qed.

(** *** Sessions *)

Lemma session_cons (py_call :
    pyval -> list pyval -> list (string * pyval) -> Process ->
    Process * outcome pyval) (object_attrs : list string)
    (op : operation) (ops : list operation) (st : State) :
  session py_call object_attrs (op :: ops) st =
  session py_call object_attrs ops (perform py_call object_attrs op st).
Proof. reflexivity. Qed.

Section Sessions.

Variable py_call :
  pyval -> list pyval -> list (string * pyval) -> Process ->
  Process * outcome pyval.
Variable object_attrs : list string.

Lemma wrapper_keeps_dispatcher (_name : string) (args : list pyval)
    (kwargs : list (string * pyval)) :
  unchanged dispatcher (wrapper py_call _name args kwargs).
Proof.
  intros st. unfold wrapper, call, bind, get_self, log, raise. fields.
  destruct (module (self st)) as [f|].
  - destruct (py_call f (PyStr _name :: args) kwargs (proc st)); reflexivity.
  - destruct (bool_decide _); reflexivity.
Qed.

Lemma wrapper_keeps_lists (_name : string) (args : list pyval)
    (kwargs : list (string * pyval)) :
  unchanged capability_lists (wrapper py_call _name args kwargs).
Proof.
  intros st. unfold wrapper, call, bind, get_self, log, raise. fields.
  destruct (module (self st)) as [f|].
  - destruct (py_call f (PyStr _name :: args) kwargs (proc st)); reflexivity.
  - destruct (bool_decide _); reflexivity.
Qed.

(** An observer kept by every operation that [allowed] admits is kept by
    every session of such operations. *)
Lemma session_unchanged {B : Type} (obs : State -> B)
    (allowed : operation -> bool) :
  (forall op st, allowed op = true ->
                 obs (perform py_call object_attrs op st) = obs st) ->
  forall ops st,
    forallb allowed ops = true ->
    obs (session py_call object_attrs ops st) = obs st.
Proof.
  intros Hop ops. induction ops as [|op ops IH]; intros st Hall.
  - reflexivity.
  - cbn [forallb] in Hall. apply andb_prop in Hall as [Ha Hall].
    rewrite session_cons, IH by exact Hall. apply Hop, Ha.
Qed.

(** X5: the dispatcher is obtained once. No operation of the class, in any
    order and whether it returns or raises, assigns [self.module] again:
    after any session the dispatcher is the one the session started with. *)
Theorem dispatcher_never_replaced (ops : list operation) (st : State) :
  module (self (session py_call object_attrs ops st)) = module (self st).
Proof.
  apply (session_unchanged dispatcher (fun _ => true)).
  - intros op st' _. destruct op; unfold perform, forget.
    + apply set_init_file_keeps_dispatcher.
    + apply parse_man_file_keeps_dispatcher.
    + apply get_sub_commands_keeps_dispatcher.
    + apply get_environment_variables_keeps_dispatcher.
    + apply (getattribute_pure dispatcher).
    + apply wrapper_keeps_dispatcher.
    + apply (environ_pure dispatcher).
  - induction ops; [reflexivity | assumption].
Qed.

(** X6: the process, that is the environment table and the globals, is
    written by forwarded calls only. A session without a call of a wrapper
    (it may locate the init file, parse manuals, access attributes and
    read [environ]) leaves [os.environ] and the globals as they were. *)
Theorem process_written_by_forwards_only (ops : list operation) (st : State) :
  forallb (fun op => negb (is_forward op)) ops = true ->
  proc (session py_call object_attrs ops st) = proc st.
Proof.
  apply (session_unchanged proc).
  intros op st' Hop. destruct op; try discriminate Hop; unfold perform, forget.
  - apply set_init_file_keeps_process.
  - apply parse_man_file_keeps_process.
  - apply get_sub_commands_keeps_process.
  - apply get_environment_variables_keeps_process.
  - apply (getattribute_pure proc).
  - apply (environ_pure proc).
Qed.

(** X7: the two capability lists change through the three parsing
    methods only. A session without them (it may locate the init file,
    access attributes, forward calls and read [environ]) leaves
    [sub_commands] and [envinronment_variables] as they were. *)
Theorem lists_written_by_parsing_only (ops : list operation) (st : State) :
  forallb (fun op => negb (is_parse op)) ops = true ->
  sub_commands (self (session py_call object_attrs ops st)) =
    sub_commands (self st) /\
  envinronment_variables (self (session py_call object_attrs ops st)) =
    envinronment_variables (self st).
Proof.
  intros Hops.
  assert (H : capability_lists (session py_call object_attrs ops st) =
              capability_lists st).
  { revert Hops. apply (session_unchanged capability_lists).
    intros op st' Hop.
    destruct op; try discriminate Hop; unfold perform, forget.
    - apply set_init_file_keeps_lists.
    - apply (getattribute_pure capability_lists).
    - apply wrapper_keeps_lists.
    - apply (environ_pure capability_lists). }
  unfold capability_lists in H. injection H as H1 H2. split; assumption.
Qed.

End Sessions.

(* ===================================================================== *)
(** ** Further properties: a fresh instance *)
(* ===================================================================== *)

Tactic Notation "fields_in" hyp(H) :=
  cbn [self proc files trace modules_home Easymod.init_file module
       sub_commands envinronment_variables negb fst snd] in H.

(** When [set_init_file] returns, it has assigned [init_file] and nothing
    else. *)
Lemma set_init_file_Return (script : option path) (st st' : State) :
  set_init_file script st = (Return tt, st') ->
  exists f,
    self st' = mkModule (modules_home (self st)) (Some f) (module (self st))
                        (sub_commands (self st))
                        (envinronment_variables (self st)) /\
    proc st' = proc st /\ files st' = files st.
Proof.
  destruct script as [f|].
  - rewrite set_init_file_explicit.
    destruct (fs_exists (files st) f); [|discriminate].
    intros [= <-]. exists f. repeat split.
  - unfold set_init_file, self_modules_home, __getattr__, glob, bind,
      get_self, log, ret, raise.
    fields. destruct (modules_home (self st)) as [h|] eqn:Hh.
    + fields.
      destruct (fs_glob (files st) h "**/init/*python*.py") as [|c [|c2 l]];
        cbn [length Nat.eqb Nat.ltb Nat.leb]; try discriminate.
      unfold assign_init_file, bind, get_self, put_self. fields.
      intros [= <-]. exists c. fields. rewrite Hh. repeat split.
    + fields. destruct (bool_decide _); discriminate.
Qed.

Section Fresh.

Variable py_exec : string -> Process -> Process * option exn.
Variable py_call :
  pyval -> list pyval -> list (string * pyval) -> Process ->
  Process * outcome pyval.
Variable object_attrs : list string.

(** The instance that a construction hands out has its three attributes
    assigned and the two class lists untouched. *)
Lemma construct_Return (home script : option path) (st st' : State) :
  construct py_exec home script st = (Return tt, st') ->
  exists h f m,
    self st' = mkModule (Some h) (Some f) (Some m) default_sub_commands
                        default_envinronment_variables.
Proof.
  intros H. unfold construct in H.
  apply bind_Return in H as (a0 & s0 & H0 & H). injection H0 as _ <-.
  unfold __init__ in H.
  apply bind_Return in H as (a1 & s1 & Hhome & H).
  assert (Hs1 : exists h, self s1 = mkModule (Some h) None None
                            default_sub_commands default_envinronment_variables
                          /\ proc s1 = proc st).
  { destruct home as [h|].
    - injection Hhome as _ <-. exists h. split; reflexivity.
    - unfold bind, get_proc in Hhome. cbn [proc] in Hhome.
      destruct (os_environ (proc st) !! "MODULESHOME") as [v|];
        [|discriminate].
      injection Hhome as _ <-. exists v. split; reflexivity. }
  destruct Hs1 as (h & Hs1 & _). clear Hhome.
  apply bind_Return in H as (a2 & s2 & Hset & H). destruct a2.
  apply set_init_file_Return in Hset as (f & Hs2 & _ & _).
  rewrite Hs1 in Hs2. cbn [modules_home module sub_commands
                           envinronment_variables] in Hs2.
  apply bind_Return in H as (f' & s3 & Hf & H).
  unfold self_init_file, bind, get_self, ret in Hf. rewrite Hs2 in Hf.
  cbn [Easymod.init_file] in Hf. injection Hf as <- <-.
  apply bind_Return in H as (source & s4 & Hopen & H).
  assert (Hs4 : self s4 = self s2).
  { unfold open_read, bind, log in Hopen. fields_in Hopen.
    destruct (fs_read (files s2) f); [|discriminate].
    injection Hopen as _ <-. reflexivity. }
  apply bind_Return in H as (a5 & s5 & Hexec & H).
  assert (Hs5 : self s5 = self s4).
  { unfold exec, bind, log in Hexec. fields_in Hexec.
    destruct (py_exec source (proc s4)) as [p' [e|]]; [discriminate|].
    injection Hexec as _ <-. reflexivity. }
  unfold bind, get_proc in H.
  destruct (py_globals (proc s5) !! "module") as [m|]; [|discriminate].
  unfold assign_module, bind, get_self, put_self in H. fields_in H.
  injection H as <-. exists h, f, m. fields.
  rewrite Hs5, Hs4, Hs2. reflexivity.
Qed.

(** None of the default sub-commands is the name of a member that the
    class defines. *)
Lemma default_names_free (name : string) :
  name ∈ default_sub_commands ->
  String.eqb name "environ" = false /\
  String.eqb name "modules_home" = false /\
  String.eqb name "init_file" = false /\
  String.eqb name "module" = false /\
  String.eqb name "sub_commands" = false /\
  String.eqb name "envinronment_variables" = false /\
  bool_decide (name ∈ methods) = false.
Proof.
  intros H. unfold default_sub_commands in H.
  repeat (apply elem_of_cons in H as [-> | H];
          [vm_compute; repeat split|]).
  inversion H.
Qed.

(** X8: on a freshly constructed instance every default sub-command is
    forwarded. For each of the 38 names of the class list (provided
    [object] itself has no attribute of that name), [m.name] is the
    wrapper, and [m.name( *args, **kwargs)] is the one call
    [module(name, *args, **kwargs)] of the dispatcher that the construction
    stored, with the dispatcher's result handed through. *)
Theorem fresh_instance_forwards_defaults (home script : option path)
    (st st' : State) (name : string) :
  construct py_exec home script st = (Return tt, st') ->
  name ∈ default_sub_commands ->
  name ∉ object_attrs ->
  getattribute object_attrs name st' = (Return (AWrapper name), st') /\
  exists f,
    module (self st') = Some f /\
    forall (args : list pyval) (kwargs : list (string * pyval)),
      wrapper py_call name args kwargs st' =
        (snd (py_call f (PyStr name :: args) kwargs (proc st')),
         mkState (self st')
                 (fst (py_call f (PyStr name :: args) kwargs (proc st')))
                 (files st')
                 (trace st' ++ [Call f (PyStr name :: args) kwargs])).
Proof.
  intros Hc Hname Hobj.
  apply construct_Return in Hc as (h & f & m & Hself).
  destruct (default_names_free name Hname)
    as (He & Hh & Hi & Hm & Hs & Hv & Hmeth).
  assert (Hmod : module (self st') = Some m) by (rewrite Hself; reflexivity).
  assert (Hsubs : sub_commands (self st') = default_sub_commands)
    by (rewrite Hself; reflexivity).
  clear Hself. split.
  - unfold getattribute, bind, get_self. rewrite He.
    unfold instance_attr, class_attr. rewrite Hh, Hi, Hm, Hs, Hv, Hmeth.
    rewrite bool_decide_eq_false_2 by exact Hobj.
    unfold __getattr__, bind, get_self. rewrite Hsubs.
    rewrite bool_decide_eq_true_2 by exact Hname.
    reflexivity.
  - exists m. split; [exact Hmod|].
    intros args kwargs. unfold wrapper, bind, get_self. rewrite Hmod.
    unfold call, bind, log. fields.
    destruct (py_call m (PyStr name :: args) kwargs (proc st')); reflexivity.
Qed.

End Fresh.

(* ===================================================================== *)
(** ** Further properties: reading and parsing the manual *)
(* ===================================================================== *)

(** With a path to open, [manual] is [open_read] of that path. *)
Lemma manual_opens (man_file : option path) (st : State) (p : path) :
  manual_path man_file (self st) = Some p ->
  manual man_file st = open_read p st.
Proof.
  unfold manual_path, manual. destruct man_file as [f|].
  - intros [= ->]. reflexivity.
  - destruct (modules_home (self st)) as [h|] eqn:Hh; [|discriminate].
    intros [= <-]. unfold self_modules_home, bind, get_self, ret.
    rewrite Hh. reflexivity.
Qed.

(** When [manual] returns there was a path to open. *)
Lemma manual_Return (man_file : option path) (st st1 : State) (man : string) :
  manual man_file st = (Return man, st1) ->
  exists p,
    manual_path man_file (self st) = Some p /\
    fs_read (files st) p = Some man /\
    st1 = mkState (self st) (proc st) (files st) (trace st ++ [FsOpen p]).
Proof.
  unfold manual_path. destruct man_file as [f|].
  - unfold manual, open_read, bind, log, ret. fields.
    destruct (fs_read (files st) f) as [text|] eqn:E; [|discriminate].
    intros [= <- <-]. exists f. split; [reflexivity|]. split; [exact E|].
    reflexivity.
  - unfold manual, self_modules_home, __getattr__, open_read, bind, get_self,
      log, ret, raise. fields.
    destruct (modules_home (self st)) as [h|].
    + fields.
      destruct (fs_read (files st) _) as [text|] eqn:E; [|discriminate].
      intros [= <- <-]. eexists. split; [reflexivity|]. split; [exact E|].
      reflexivity.
    + destruct (bool_decide _); discriminate.
Qed.

Lemma open_read_result (p : path) (st : State) :
  open_read p st =
    (match fs_read (files st) p with
     | Some text => Return text
     | None => Raise (OpenError p)
     end,
     mkState (self st) (proc st) (files st) (trace st ++ [FsOpen p])).
Proof.
  unfold open_read, bind, log. fields.
  destruct (fs_read (files st) p); reflexivity.
Qed.

(** With the header absent, [start] is [-1] and the text between the
    bounds is empty, whatever [closing] marker the search for the end
    uses. *)
Lemma section_without_header (man closing : string) :
  let start := -1 in
  let end_ := start + find (slice_from man (start + 3)) closing + 1 in
  slice man start end_ = "".
Proof.
  cbv zeta. apply slice_empty.
  pose proof (len_nonneg man) as Hn.
  pose proof (len_nonneg closing) as Hc.
  pose proof (find_range (slice_from man (-1 + 3)) closing) as Hr.
  rewrite slice_from_len in Hr by lia.
  set (r := find (slice_from man (-1 + 3)) closing) in *.
  unfold clamp. change (-1 <? 0) with true. cbv iota.
  destruct (-1 + r + 1 <? 0) eqn:E.
  - apply Z.ltb_lt in E. lia.
  - apply Z.ltb_ge in E. lia.
Qed.

(** With no closing marker after the header, [end] is [start] and the
    text between the bounds is empty. *)
Lemma section_without_closing (man : string) (start : Z) :
  slice man start (start + -1 + 1) = "".
Proof. apply slice_empty. replace (start + -1 + 1) with start by lia. lia. Qed.

Lemma findall_empty_sub_command : findall re_sub_command "" = [].
Proof. reflexivity. Qed.

Section Parsing.

Variable object_attrs : list string.

(** An access to a name that is no member is answered by [__getattr__]. *)
Lemma getattribute_falls_through (st : State) (name : string) :
  is_member object_attrs (self st) name = false ->
  getattribute object_attrs name st = __getattr__ name st.
Proof.
  intros Hmem. apply is_member_false in Hmem as (He & Hi & Hc).
  unfold getattribute, bind, get_self. rewrite He, Hi, Hc. reflexivity.
Qed.

(** X9: for every manual text in which the header
    [.SS Module Sub\-Commands] does not occur, [get_sub_commands] raises
    nothing and stores the empty list. From then on no name is forwarded:
    every access to a name that is no member of the instance raises
    [AttributeError], the default sub-commands included. *)
Theorem no_header_no_sub_commands (man_file : option path) (man : string)
    (st st1 : State) :
  manual man_file st = (Return man, st1) ->
  ~ occurs ".SS Module Sub\-Commands" man ->
  exists st2,
    get_sub_commands man_file st = (Return tt, st2) /\
    sub_commands (self st2) = [] /\
    forall name,
      is_member object_attrs (self st2) name = false ->
      getattribute object_attrs name st2 =
        (Raise (AttributeError ("Module has no such attribute " ++ name)), st2).
Proof.
  intros Hman Habsent. apply find_absent_iff in Habsent.
  unfold get_sub_commands, bind. rewrite Hman. cbv zeta.
  rewrite Habsent, section_without_header, findall_empty_sub_command.
  eexists. split; [reflexivity|]. split; [reflexivity|].
  intros name Hmem. rewrite getattribute_falls_through by exact Hmem.
  reflexivity.
Qed.

End Parsing.

(** X10: when the header [.SS Module Sub\-Commands] is in the manual and
    no further [.SS] follows it (the sub-commands are the last [.SS]
    section), [get_sub_commands] stores the empty list, whatever entries
    the section holds. *)
Theorem last_section_not_parsed (man_file : option path) (man : string)
    (st st1 : State) :
  manual man_file st = (Return man, st1) ->
  occurs ".SS Module Sub\-Commands" man ->
  ~ occurs ".SS" (slice_from man (find man ".SS Module Sub\-Commands" + 3)) ->
  exists st2,
    get_sub_commands man_file st = (Return tt, st2) /\
    sub_commands (self st2) = [].
Proof.
  intros Hman _ Hlast. apply find_absent_iff in Hlast.
  unfold get_sub_commands, bind. rewrite Hman. cbv zeta.
  rewrite Hlast, section_without_closing, findall_empty_sub_command.
  eexists. split; reflexivity.
Qed.

(** X11: when the manual cannot be opened or read, [parse_man_file] raises
    the error of [open] after that one attempt, and the instance, both
    lists included, is as before. *)
Theorem unreadable_manual_changes_nothing (man_file : option path)
    (st : State) (p : path) :
  manual_path man_file (self st) = Some p ->
  fs_read (files st) p = None ->
  parse_man_file man_file st =
    (Raise (OpenError p),
     mkState (self st) (proc st) (files st) (trace st ++ [FsOpen p])).
Proof.
  intros Hpath Hread.
  unfold parse_man_file, get_sub_commands. unfold bind at 1 2.
  rewrite (manual_opens _ _ _ Hpath), open_read_result, Hread.
  reflexivity.
Qed.

(** The two parsers, when the manual can be read. *)
Lemma get_sub_commands_result (man_file : option path) (st : State)
    (p : path) (man : string) :
  manual_path man_file (self st) = Some p ->
  fs_read (files st) p = Some man ->
  get_sub_commands man_file st =
    (Return tt,
     mkState (mkModule (modules_home (self st)) (init_file (self st))
                       (module (self st)) (sub_commands_of man)
                       (envinronment_variables (self st)))
             (proc st) (files st) (trace st ++ [FsOpen p])).
Proof.
  intros Hpath Hread. unfold get_sub_commands, bind.
  rewrite (manual_opens _ _ _ Hpath), open_read_result, Hread.
  reflexivity.
Qed.

Lemma get_environment_variables_result (man_file : option path) (st : State)
    (p : path) (man : string) :
  manual_path man_file (self st) = Some p ->
  fs_read (files st) p = Some man ->
  get_environment_variables man_file st =
    (Return tt,
     mkState (mkModule (modules_home (self st)) (init_file (self st))
                       (module (self st)) (sub_commands (self st))
                       (environment_variables_of man))
             (proc st) (files st) (trace st ++ [FsOpen p])).
Proof.
  intros Hpath Hread. unfold get_environment_variables, bind.
  rewrite (manual_opens _ _ _ Hpath), open_read_result, Hread.
  reflexivity.
Qed.

(** X12: [parse_man_file] is the two parsers one after the other on the
    same file. When the manual can be read it returns, the file has been
    opened and read twice, the sub-command list is the one
    [get_sub_commands] alone would store and the environment-variable list
    the one [get_environment_variables] alone would store: neither parser
    depends on what the other did. *)
Theorem parse_man_file_is_both_parsers (man_file : option path)
    (man : string) (st st1 : State) :
  manual man_file st = (Return man, st1) ->
  exists p st2,
    manual_path man_file (self st) = Some p /\
    parse_man_file man_file st = (Return tt, st2) /\
    trace st2 = (trace st ++ [FsOpen p; FsOpen p])%list /\
    sub_commands (self st2) =
      sub_commands (self (snd (get_sub_commands man_file st))) /\
    envinronment_variables (self st2) =
      envinronment_variables
        (self (snd (get_environment_variables man_file st))).
Proof.
  intros Hman.
  destruct (manual_Return _ _ _ _ Hman) as (p & Hpath & Hread & _).
  exists p. unfold parse_man_file, bind.
  rewrite (get_sub_commands_result _ _ _ _ Hpath Hread).
  rewrite (get_environment_variables_result _ st _ _ Hpath Hread).
  rewrite (get_environment_variables_result _ _ p man).
  - eexists. split; [exact Hpath|]. split; [reflexivity|]. fields.
    split; [rewrite <- app_assoc; reflexivity|]. split; reflexivity.
  - destruct man_file; exact Hpath.
  - exact Hread.
Qed.

(** *** The default place of the manual *)

Lemma list_ascii_of_string_append (a b : string) :
  list_ascii_of_string (a ++ b) =
  (list_ascii_of_string a ++ list_ascii_of_string b)%list.
Proof.
  induction a as [|c a IH]; [reflexivity|].
  change (String c a ++ b) with (String c (a ++ b)).
  cbn [list_ascii_of_string]. rewrite IH. reflexivity.
Qed.

Lemma ends_with_slash_append (a : string) (c : ascii) (b : string) :
  ends_with_slash (a ++ String c b) = ends_with_slash (String c b).
Proof.
  unfold ends_with_slash.
  rewrite list_ascii_of_string_append, rev_app_distr.
  destruct (rev (list_ascii_of_string (String c b))) as [|x l] eqn:E.
  - apply (f_equal (@length ascii)) in E. rewrite length_rev in E.
    discriminate E.
  - reflexivity.
Qed.

Lemma append_not_empty (a : string) (c : ascii) (b : string) :
  String.eqb (a ++ String c b) "" = false.
Proof. destruct a; reflexivity. Qed.

(** [os.path.join(a, b)] puts one slash between [a] and a relative [b],
    unless [a] is empty or brings the slash itself. *)
Lemma join2_relative (a b : string) :
  String.prefix "/" b = false ->
  join2 a b =
    (if (String.eqb a "" || ends_with_slash a)%bool then a else a ++ "/") ++ b.
Proof.
  intros Hb. unfold join2. rewrite Hb.
  destruct (String.eqb a "" || ends_with_slash a)%bool; [reflexivity|].
  rewrite append_assoc. reflexivity.
Qed.

Lemma join2_after_name (a : string) (c : ascii) (w b : string) :
  String.prefix "/" b = false ->
  ends_with_slash (String c w) = false ->
  join2 (a ++ String c w) b = a ++ String c w ++ "/" ++ b.
Proof.
  intros Hb Hw. rewrite join2_relative by exact Hb.
  rewrite append_not_empty, ends_with_slash_append, Hw. cbn [orb].
  rewrite !append_assoc. reflexivity.
Qed.

Lemma default_manual_path (h : path) :
  os_path_join h ["share"; "man"; "man1"; "module.1"] =
  (if (String.eqb h "" || ends_with_slash h)%bool then h else h ++ "/")
  ++ "share/man/man1/module.1".
Proof.
  unfold os_path_join. cbn [fold_left].
  rewrite (join2_relative h "share") by reflexivity.
  set (base := if (String.eqb h "" || ends_with_slash h)%bool
               then h else h ++ "/").
  rewrite (join2_after_name base "s" "hare" "man") by reflexivity.
  change (base ++ "share" ++ "/" ++ "man") with (base ++ "share/man").
  rewrite (join2_after_name base "s" "hare/man" "man1") by reflexivity.
  change (base ++ "share/man" ++ "/" ++ "man1") with (base ++ "share/man/man1").
  rewrite (join2_after_name base "s" "hare/man/man1" "module.1") by reflexivity.
  reflexivity.
Qed.

(** X13: with no [man_file] given, the parsers open
    [<modules_home>/share/man/man1/module.1]: the four components follow
    the home with one slash each, and a home that ends in a slash (the
    root) does not get a second one. *)
Theorem manual_read_under_home (st : State) (h : path) :
  modules_home (self st) = Some h ->
  manual None st =
    open_read ((if (String.eqb h "" || ends_with_slash h)%bool
                then h else h ++ "/") ++ "share/man/man1/module.1") st.
Proof.
  intros Hh. rewrite <- default_manual_path.
  apply manual_opens. unfold manual_path. rewrite Hh. reflexivity.
Qed.

(* ===================================================================== *)
(** ** Further properties: what the patterns capture *)
(* ===================================================================== *)

Lemma longest_first_Some {X : Type} (k : nat) (f : nat -> option X) (x : X) :
  longest_first k f = Some x ->
  exists j, (1 <= j <= k)%nat /\ f j = Some x.
Proof.
  induction k as [|k IH]; intros H; [discriminate|].
  cbn [longest_first] in H. destruct (f (S k)) as [y|] eqn:E.
  - injection H as ->. exists (S k). split; [lia | exact E].
  - destruct (IH H) as (j & Hj & Hf). exists j. split; [lia | exact Hf].
Qed.

(** A prefix no longer than the run is made of characters of the atom. *)
Lemma str_take_run (a : atom) (j : nat) (s : string) :
  (j <= run a s)%nat ->
  str_forall (atom_ok a) (str_take j s) = true /\
  String.length (str_take j s) = j.
Proof.
  revert s. induction j as [|j IH]; intros s Hj; [split; reflexivity|].
  destruct s as [|c s]; cbn [run] in Hj; [lia|].
  destruct (atom_ok a c) eqn:E; [|lia].
  destruct (IH s) as [Hall Hlen]; [lia|].
  cbn [str_take str_forall String.length]. rewrite E, Hall, Hlen.
  split; reflexivity.
Qed.

Lemma match_here_groups (r : regex) (s : string) (gs : list string)
    (rest : string) :
  match_here r s = Some (gs, rest) -> groups_valid r gs.
Proof.
  revert s gs rest. induction r as [|[a|a] r IH]; intros s gs rest H.
  - injection H as <- _. reflexivity.
  - cbn [match_here] in H. destruct s as [|c s]; [discriminate|].
    destruct (atom_ok a c); [|discriminate].
    cbn [groups_valid]. exact (IH _ _ _ H).
  - cbn [match_here] in H.
    apply longest_first_Some in H as (j & Hj & H).
    destruct (match_here r (str_drop j s)) as [[gs' rest']|] eqn:E;
      [|discriminate].
    injection H as <- <-.
    destruct (str_take_run a j s) as [Hall Hlen]; [lia|].
    cbn [groups_valid]. exists (str_take j s), gs'.
    split; [reflexivity|]. split.
    + intros Hempty. rewrite Hempty in Hlen. cbn in Hlen. lia.
    + split; [exact Hall | exact (IH _ _ _ E)].
Qed.

(** Every item of a [findall] result was reported for a match. *)
Lemma findall_scan_reported (r : regex) (s : string) (skip : nat)
    (t : string) :
  t ∈ findall_scan r s skip ->
  exists s' gs rest,
    match_here r s' = Some (gs, rest) /\ t = reported s' gs rest.
Proof.
  revert skip. induction s as [|c s IH]; intros skip Hin.
  - destruct skip as [|k]; cbn [findall_scan] in Hin; [|inversion Hin].
    destruct (match_here r "") as [[gs rest]|] eqn:E; [|inversion Hin].
    apply list_elem_of_singleton in Hin as ->. eauto.
  - destruct skip as [|k]; cbn [findall_scan] in Hin; [|exact (IH _ Hin)].
    destruct (match_here r (String c s)) as [[gs rest]|] eqn:E.
    + apply elem_of_cons in Hin as [-> | Hin]; [eauto | exact (IH _ Hin)].
    + exact (IH _ Hin).
Qed.

(** What the two patterns of the source capture: one group, not empty,
    of characters of the class. *)
Lemma findall_entry_valid (c : ascii -> bool) (s t : string) :
  t ∈ findall (entry_regex c) s ->
  t <> "" /\ str_forall c t = true.
Proof.
  intros Hin. apply findall_scan_reported in Hin as (s' & gs & rest & Hm & ->).
  apply match_here_groups in Hm.
  cbn in Hm. destruct Hm as (g & gs' & -> & Hne & Hall & ->).
  cbn [reported]. split; assumption.
Qed.

Lemma str_forall_impl (p q : ascii -> bool) (s : string) :
  (forall c, p c = true -> q c = true) ->
  str_forall p s = true -> str_forall q s = true.
Proof.
  intros Hpq. induction s as [|c s IH]; [reflexivity|].
  cbn [str_forall]. intros H. apply andb_prop in H as [Hc Hs].
  rewrite (Hpq c Hc), (IH Hs). reflexivity.
Qed.

Lemma cls_env_var_no_hyphen (c : ascii) :
  cls_env_var c = true -> negb (Ascii.eqb c "-") = true.
Proof.
  intros H. destruct (Ascii.eqb_spec c "-") as [-> | _]; [|reflexivity].
  discriminate H.
Qed.

(** When a parser returns, its list is what it computed from the text
    it read. *)
Lemma get_sub_commands_Return (man_file : option path) (st st' : State) :
  get_sub_commands man_file st = (Return tt, st') ->
  exists man, sub_commands (self st') = sub_commands_of man.
Proof.
  intros H. unfold get_sub_commands in H.
  apply bind_Return in H as (man & st1 & Hman & H).
  apply manual_Return in Hman as (p & Hpath & Hread & ->).
  injection H as <-. exists man. reflexivity.
Qed.

Lemma get_environment_variables_Return (man_file : option path)
    (st st' : State) :
  get_environment_variables man_file st = (Return tt, st') ->
  exists man, envinronment_variables (self st') = environment_variables_of man.
Proof.
  intros H. unfold get_environment_variables in H.
  apply bind_Return in H as (man & st1 & Hman & H).
  apply manual_Return in Hman as (p & Hpath & Hread & ->).
  injection H as <-. exists man. reflexivity.
Qed.

(** X14: whatever the manual holds, a name that [get_sub_commands] stores
    is not empty and consists of word characters, bars and hyphens only:
    no name with a space, a slash, a dot or a backslash enters the list. *)
Theorem stored_sub_commands_are_tokens (man_file : option path)
    (st st' : State) (t : string) :
  get_sub_commands man_file st = (Return tt, st') ->
  t ∈ sub_commands (self st') ->
  t <> "" /\ str_forall cls_sub_command t = true.
Proof.
  intros H Hin. apply get_sub_commands_Return in H as (man & Hsubs).
  rewrite Hsubs in Hin. unfold sub_commands_of in Hin. cbv zeta in Hin.
  exact (findall_entry_valid cls_sub_command _ _ Hin).
Qed.

(** X15: whatever the manual holds, a name that
    [get_environment_variables] stores is not empty and consists of the
    letters [A] to [Z], bars and underscores only. In particular it holds
    no hyphen: the hyphen of the class [[A-Z|-|_]] stands between two bars
    and makes a range of them. *)
Theorem stored_environment_variables_are_tokens (man_file : option path)
    (st st' : State) (t : string) :
  get_environment_variables man_file st = (Return tt, st') ->
  t ∈ envinronment_variables (self st') ->
  t <> "" /\
  str_forall cls_env_var t = true /\
  str_forall (fun c => negb (Ascii.eqb c "-")) t = true.
Proof.
  intros H Hin. apply get_environment_variables_Return in H as (man & Hvars).
  rewrite Hvars in Hin. unfold environment_variables_of in Hin.
  cbv zeta in Hin.
  destruct (findall_entry_valid cls_env_var _ _ Hin) as [Hne Hall].
  split; [exact Hne|]. split; [exact Hall|].
  exact (str_forall_impl _ _ _ cls_env_var_no_hyphen Hall).
Qed.

(* ===================================================================== *)
(** ** Further properties: sections that are read back *)
(* ===================================================================== *)

Lemma lit_String (c : ascii) (s : string) :
  lit (String c s) = One (Chr c) :: lit s.
Proof. reflexivity. Qed.

(** Literal characters of the pattern consume the same characters of the
    text. *)
Lemma match_here_lit (s : string) (r : regex) (x : string) :
  match_here (lit s ++ r)%list (s ++ x) = match_here r x.
Proof.
  induction s as [|c s IH]; [reflexivity|].
  rewrite lit_String.
  change (String c s ++ x) with (String c (s ++ x)).
  cbn [app match_here atom_ok]. rewrite Ascii.eqb_refl. exact IH.
Qed.

Lemma str_take_all (t x : string) : str_take (String.length t) (t ++ x) = t.
Proof.
  induction t as [|c t IH]; [destruct x; reflexivity|].
  change (String c t ++ x) with (String c (t ++ x)).
  cbn [String.length str_take]. rewrite IH. reflexivity.
Qed.

(** The run of class characters at the start of [t ++ b...] is [t] when
    [t] is made of them and [b] is not one. *)
Lemma run_token (c : ascii -> bool) (t : string) (b : ascii) (x : string) :
  str_forall c t = true -> c b = false ->
  run (Cls c) (t ++ String b x) = String.length t.
Proof.
  intros Ht Hb. induction t as [|a t IH].
  - change ("" ++ String b x) with (String b x).
    cbn [run atom_ok]. rewrite Hb. reflexivity.
  - change (String a t ++ String b x) with (String a (t ++ String b x)).
    cbn [str_forall] in Ht. apply andb_prop in Ht as [Ha Ht].
    cbn [run atom_ok String.length]. rewrite Ha, (IH Ht). reflexivity.
Qed.

(** The pattern matches an entry at the start of the text, captures its
    name and stops right after it. *)
Lemma match_here_entry (c : ascii -> bool) (t x : string) :
  c "\"%char = false ->
  t <> "" -> str_forall c t = true ->
  match_here (entry_regex c) (entry t ++ x) = Some ([t], x).
Proof.
  intros Hc Hne Ht. unfold entry_regex, entry.
  rewrite !append_assoc.
  change (".sp" ++ nl ++ "\fB" ++ t ++ "\fP" ++ x)
    with (String "." (("sp" ++ nl ++ "\fB") ++ t ++ "\fP" ++ x)).
  change (lit "sp" ++ lit nl ++ lit "\fB" ++ [GroupPlus (Cls c)] ++ lit "\fP")%list
    with (lit ("sp" ++ nl ++ "\fB") ++ GroupPlus (Cls c) :: lit "\fP" ++ [])%list.
  cbn [match_here atom_ok]. change (negb (Ascii.eqb "." "010")) with true.
  cbv iota. rewrite match_here_lit.
  cbn [match_here].
  change ("\fP" ++ x) with (String "\" ("fP" ++ x)).
  rewrite run_token by assumption.
  destruct t as [|a t]; [congruence|].
  set (tok := String a t) in *.
  change (String.length tok) with (S (String.length t)).
  cbn [longest_first].
  change (S (String.length t)) with (String.length tok).
  rewrite str_drop_append.
  change (String "\" ("fP" ++ x)) with ("\fP" ++ x).
  rewrite match_here_lit. cbn [match_here].
  rewrite str_take_all. reflexivity.
Qed.

(** Passing over the characters of a match. *)
Lemma findall_scan_skip (r : regex) (a b : string) :
  findall_scan r (a ++ b) (String.length a) = findall_scan r b O.
Proof.
  induction a as [|c a IH]; [reflexivity|].
  change (String c a ++ b) with (String c (a ++ b)).
  cbn [String.length findall_scan]. exact IH.
Qed.

Lemma length_append (a b : string) :
  String.length (a ++ b) = (String.length a + String.length b)%nat.
Proof.
  induction a as [|c a IH]; [reflexivity|].
  change (String c a ++ b) with (String c (a ++ b)).
  cbn [String.length]. rewrite IH. reflexivity.
Qed.

(** One entry on its line, then the rest of the text. *)
Lemma findall_entry_line (c : ascii -> bool) (t y : string) :
  c "\"%char = false ->
  t <> "" -> str_forall c t = true ->
  findall_scan (entry_regex c) (entry t ++ nl ++ y) O =
  t :: findall_scan (entry_regex c) y O.
Proof.
  intros Hc Hne Ht.
  pose proof (match_here_entry c t (nl ++ y) Hc Hne Ht) as Hm.
  assert (Hshape : exists e', entry t = String "." e').
  { unfold entry. eexists. reflexivity. }
  destruct Hshape as [e' He]. rewrite He in *.
  change (String "." e' ++ nl ++ y) with (String "." (e' ++ nl ++ y)) in *.
  cbn [findall_scan]. rewrite Hm. cbn [reported]. f_equal.
  replace (String.length (String "." (e' ++ nl ++ y))
           - String.length (nl ++ y) - 1)%nat
    with (String.length e').
  2:{ cbn [String.length]. rewrite length_append. lia. }
  rewrite findall_scan_skip.
  change (nl ++ y) with (String "010" y).
  reflexivity.
Qed.

(** The pattern reads a run of entries back in order, and reads what
    follows them as if it stood alone. *)
Lemma findall_entries (c : ascii -> bool) (ts : list string) (tail : string) :
  c "\"%char = false ->
  Forall (fun t => t <> "" /\ str_forall c t = true) ts ->
  findall (entry_regex c) (entries ts ++ tail) =
  (ts ++ findall (entry_regex c) tail)%list.
Proof.
  intros Hc Hts. unfold findall. induction Hts as [|t ts [Hne Ht] _ IH].
  - reflexivity.
  - cbn [entries]. rewrite !append_assoc.
    rewrite findall_entry_line by assumption.
    rewrite IH. reflexivity.
Qed.

(** The text between the bounds that the parsers compute. Let the manual
    be [pre ++ sec ++ suf], the header be found at the start of [sec] and
    the closing marker at the start of [suf]. The bounds select [sec]
    without its last two characters. *)
Lemma section_two_short (header closing pre sec suf : string) :
  let man := pre ++ sec ++ suf in
  find man header = len pre ->
  2 <= len sec ->
  find (slice_from man (len pre + 3)) closing = len sec - 3 ->
  let start := find man header in
  let end_ := start + find (slice_from man (start + 3)) closing + 1 in
  slice man start end_ = str_take (String.length sec - 2) sec.
Proof.
  intros man Hstart Hsec Hnext. cbv zeta. fold man.
  rewrite Hstart, Hnext. unfold slice.
  assert (Hlen : len man = len pre + len sec + len suf).
  { unfold man. rewrite !len_append. lia. }
  pose proof (len_nonneg pre). pose proof (len_nonneg suf).
  assert (Ha : clamp (len man) (len pre) = len pre).
  { unfold clamp. destruct (len pre <? 0) eqn:E; lia. }
  assert (Hb : clamp (len man) (len pre + (len sec - 3) + 1)
               = len pre + len sec - 2).
  { unfold clamp. destruct (len pre + (len sec - 3) + 1 <? 0) eqn:E; lia. }
  rewrite Ha, Hb.
  replace (Z.to_nat (len pre)) with (String.length pre) by (unfold len; lia).
  replace (Z.to_nat (len pre + len sec - 2 - len pre))
    with (String.length sec - 2)%nat by (unfold len in *; lia).
  unfold man. rewrite str_drop_append.
  apply str_take_append. lia.
Qed.

Lemma str_take_but_two (x : string) (c1 c2 : ascii) :
  str_take (String.length (x ++ String c1 (String c2 "")) - 2)
           (x ++ String c1 (String c2 "")) = x.
Proof.
  rewrite length_append. cbn [String.length].
  replace (String.length x + 2 - 2)%nat with (String.length x) by lia.
  apply str_take_all.
Qed.

Lemma findall_past_sub_commands_header (y : string) :
  findall re_sub_command (".SS Module Sub\-Commands" ++ nl ++ y) =
  findall re_sub_command y.
Proof. vm_compute. reflexivity. Qed.

Lemma findall_past_environment_header (y : string) :
  findall re_env_var (".SH ENVIRONMENT" ++ nl ++ y) = findall re_env_var y.
Proof. vm_compute. reflexivity. Qed.

(** X16: a sub-commands section that is read back. Let the manual be
    [pre ++ sec ++ suf], where [sec] is the header line, then the entries
    of [ts], each on lines of its own, then some text [pad] and two more
    characters; let the header first occur at the start of [sec] and the
    next [.SS] at the start of [suf]; let the names of [ts] be tokens and
    [pad] hold no entry. Then [get_sub_commands] stores exactly [ts], in
    the order of the manual, whatever [pre] and [suf] are. *)
Theorem padded_sub_commands_section_parsed (man_file : option path)
    (st st1 : State) (pre suf pad : string) (ts : list string)
    (c1 c2 : ascii) :
  let sec := ".SS Module Sub\-Commands" ++ nl ++ entries ts ++ pad
             ++ String c1 (String c2 "") in
  let man := pre ++ sec ++ suf in
  manual man_file st = (Return man, st1) ->
  find man ".SS Module Sub\-Commands" = len pre ->
  find (slice_from man (len pre + 3)) ".SS" = len sec - 3 ->
  Forall (fun t => t <> "" /\ str_forall cls_sub_command t = true) ts ->
  findall re_sub_command pad = [] ->
  exists st2,
    get_sub_commands man_file st = (Return tt, st2) /\
    sub_commands (self st2) = ts.
Proof.
  intros sec man Hman Hstart Hnext Hts Hpad.
  destruct (manual_Return _ _ _ _ Hman) as (p & Hpath & Hread & _).
  rewrite (get_sub_commands_result _ _ _ _ Hpath Hread).
  eexists. split; [reflexivity|]. cbn [self sub_commands].
  unfold sub_commands_of.
  assert (Hsec : 2 <= len sec).
  { unfold sec. rewrite !len_append. unfold len at 5. cbn [String.length].
    pose proof (len_nonneg (entries ts)). pose proof (len_nonneg pad).
    pose proof (len_nonneg nl).
    pose proof (len_nonneg ".SS Module Sub\-Commands"). lia. }
  subst man.
  rewrite (section_two_short ".SS Module Sub\-Commands" ".SS" pre sec suf
             Hstart Hsec Hnext).
  assert (Hshape : sec = (".SS Module Sub\-Commands" ++ nl ++ entries ts ++ pad)
                         ++ String c1 (String c2 "")).
  { unfold sec. rewrite !append_assoc. reflexivity. }
  rewrite Hshape, str_take_but_two, findall_past_sub_commands_header.
  change re_sub_command with (entry_regex cls_sub_command) in *.
  rewrite findall_entries, Hpad by (reflexivity || exact Hts).
  apply app_nil_r.
Qed.

(** X17: an environment section that is read back. Let the manual be
    [pre ++ sec ++ suf], where [sec] is the header line [.SH ENVIRONMENT],
    then the entries of [ts], then some text [pad] and two more
    characters; let the header first occur at the start of [sec] and the
    next line that begins with [.S] follow [sec]; let the names of [ts] be
    made of [A] to [Z], bars and underscores, and [pad] hold no entry.
    Then [get_environment_variables] stores exactly [ts], in the order of
    the manual. *)
Theorem padded_environment_section_parsed (man_file : option path)
    (st st1 : State) (pre suf pad : string) (ts : list string)
    (c1 c2 : ascii) :
  let sec := ".SH ENVIRONMENT" ++ nl ++ entries ts ++ pad
             ++ String c1 (String c2 "") in
  let man := pre ++ sec ++ suf in
  manual man_file st = (Return man, st1) ->
  find man ".SH ENVIRONMENT" = len pre ->
  find (slice_from man (len pre + 3)) (nl ++ ".S") = len sec - 3 ->
  Forall (fun t => t <> "" /\ str_forall cls_env_var t = true) ts ->
  findall re_env_var pad = [] ->
  exists st2,
    get_environment_variables man_file st = (Return tt, st2) /\
    envinronment_variables (self st2) = ts.
Proof.
  intros sec man Hman Hstart Hnext Hts Hpad.
  destruct (manual_Return _ _ _ _ Hman) as (p & Hpath & Hread & _).
  rewrite (get_environment_variables_result _ _ _ _ Hpath Hread).
  eexists. split; [reflexivity|]. cbn [self envinronment_variables].
  unfold environment_variables_of.
  assert (Hsec : 2 <= len sec).
  { unfold sec. rewrite !len_append. unfold len at 5. cbn [String.length].
    pose proof (len_nonneg (entries ts)). pose proof (len_nonneg pad).
    pose proof (len_nonneg nl).
    pose proof (len_nonneg ".SH ENVIRONMENT"). lia. }
  subst man.
  rewrite (section_two_short ".SH ENVIRONMENT" (nl ++ ".S") pre sec suf
             Hstart Hsec Hnext).
  assert (Hshape : sec = (".SH ENVIRONMENT" ++ nl ++ entries ts ++ pad)
                         ++ String c1 (String c2 "")).
  { unfold sec. rewrite !append_assoc. reflexivity. }
  rewrite Hshape, str_take_but_two, findall_past_environment_header.
  change re_env_var with (entry_regex cls_env_var) in *.
  rewrite findall_entries, Hpad by (reflexivity || exact Hts).
  apply app_nil_r.
Qed.

(* ===================================================================== *)
(** ** The further properties at work in the small world *)
(* ===================================================================== *)

Lemma construct_explicit_init_file_missing_witness :
  let st := Demo.start Demo.bare Demo.disk in
  fs_exists (files st) "/opt/modules/init/bash" = false /\
  exists st',
    construct Demo.tiny_exec (Some Demo.home_dir)
      (Some "/opt/modules/init/bash") st =
      (Raise (FileNotFoundError
                ("Module initialisation file not found" ++ nl
                 ++ "/opt/modules/init/bash")), st') /\
    trace st' = (trace st ++ [FsExists "/opt/modules/init/bash"])%list /\
    proc st' = proc st.
Proof.
  cbv zeta. split; [reflexivity|].
  exact (construct_explicit_init_file_missing Demo.tiny_exec
           (Some Demo.home_dir) (Demo.start Demo.bare Demo.disk)
           Demo.home_dir "/opt/modules/init/bash"
           (or_introl eq_refl) eq_refl).
Defined.

Lemma script_exception_propagates_witness :
  let st := Demo.start Demo.bare Cases.disk in
  fs_exists (files st) Cases.broken_py = true /\
  fs_read (files st) Cases.broken_py = Some "raise SystemExit" /\
  Cases.exec_ "raise SystemExit" (proc st) =
    (Demo.bare, Some (Foreign "SystemExit")) /\
  exists st',
    construct Cases.exec_ (Some Demo.home_dir) (Some Cases.broken_py) st =
      (Raise (Foreign "SystemExit"), st') /\
    proc st' = Demo.bare /\
    module (self st') = None.
Proof.
  cbv zeta. split; [reflexivity|]. split; [reflexivity|].
  split; [reflexivity|].
  exact (script_exception_propagates Cases.exec_ (Some Demo.home_dir)
           (Some Cases.broken_py) (Demo.start Demo.bare Cases.disk)
           Demo.home_dir Cases.broken_py "raise SystemExit" Demo.bare
           (Foreign "SystemExit")
           (or_introl eq_refl) (or_introl (conj eq_refl eq_refl))
           eq_refl eq_refl).
Defined.

Lemma unreadable_script_not_executed_witness :
  let st := Demo.start Demo.bare Cases.disk in
  fs_exists (files st) Cases.locked_py = true /\
  fs_read (files st) Cases.locked_py = None /\
  exists st' tr,
    construct Demo.tiny_exec (Some Demo.home_dir) (Some Cases.locked_py) st =
      (Raise (OpenError Cases.locked_py), st') /\
    proc st' = proc st /\
    trace st' = (trace st ++ tr)%list /\
    forall source, Exec source ∉ tr.
Proof.
  cbv zeta. split; [reflexivity|]. split; [reflexivity|].
  exact (unreadable_script_not_executed Demo.tiny_exec (Some Demo.home_dir)
           (Some Cases.locked_py) (Demo.start Demo.bare Cases.disk)
           Demo.home_dir Cases.locked_py
           (or_introl eq_refl) (or_introl (conj eq_refl eq_refl)) eq_refl).
Defined.

Lemma process_written_by_forwards_only_witness :
  let ops := [DoParseManFile (Some Demo.man_roomy);
              DoSetInitFile (Some Demo.empty_py);
              DoGetattribute "load"; DoEnviron] in
  forallb (fun op => negb (is_forward op)) ops = true /\
  proc (session Demo.tiny_call Demo.python_object_attrs ops Demo.ready) =
    proc Demo.ready.
Proof.
  cbv zeta. split; [reflexivity|].
  apply (process_written_by_forwards_only Demo.tiny_call
           Demo.python_object_attrs). reflexivity.
Defined.

Lemma lists_written_by_parsing_only_witness :
  let ops := [DoSetInitFile (Some Demo.empty_py);
              DoCallWrapper "load" [PyStr "gcc"] [];
              DoGetattribute "sub_commands"; DoEnviron] in
  forallb (fun op => negb (is_parse op)) ops = true /\
  sub_commands
    (self (session Demo.tiny_call Demo.python_object_attrs ops Demo.ready)) =
    sub_commands (self Demo.ready) /\
  envinronment_variables
    (self (session Demo.tiny_call Demo.python_object_attrs ops Demo.ready)) =
    envinronment_variables (self Demo.ready).
Proof.
  cbv zeta. split; [reflexivity|].
  apply (lists_written_by_parsing_only Demo.tiny_call
           Demo.python_object_attrs). reflexivity.
Defined.

Lemma fresh_instance_forwards_defaults_witness :
  construct Demo.tiny_exec (Some Demo.home_dir) None
    (Demo.start Demo.bare Demo.disk) = (Return tt, Demo.ready) /\
  ("purge" ∈ default_sub_commands) /\
  ("purge" ∉ Demo.python_object_attrs) /\
  getattribute Demo.python_object_attrs "purge" Demo.ready =
    (Return (AWrapper "purge"), Demo.ready) /\
  fst (wrapper Demo.tiny_call "purge" [] [] Demo.ready) =
    Return (PyStr "purge").
Proof.
  assert (H1 : construct Demo.tiny_exec (Some Demo.home_dir) None
                 (Demo.start Demo.bare Demo.disk) = (Return tt, Demo.ready))
    by reflexivity.
  assert (H2 : "purge" ∈ default_sub_commands).
  { apply (bool_decide_eq_true_1 _). vm_compute. reflexivity. }
  assert (H3 : "purge" ∉ Demo.python_object_attrs).
  { apply (bool_decide_eq_false_1 _). vm_compute. reflexivity. }
  destruct (fresh_instance_forwards_defaults Demo.tiny_exec Demo.tiny_call
              Demo.python_object_attrs _ _ _ _ "purge" H1 H2 H3)
    as (Hget & f & Hf & Hcall).
  split; [exact H1|]. split; [exact H2|]. split; [exact H3|].
  split; [exact Hget|].
  rewrite Hcall. injection Hf as <-. reflexivity.
Defined.

Lemma no_header_no_sub_commands_witness :
  let st := Demo.ready in
  let st1 := snd (manual (Some Demo.man_plain) st) in
  manual (Some Demo.man_plain) st = (Return Demo.text_plain, st1) /\
  ~ occurs ".SS Module Sub\-Commands" Demo.text_plain /\
  exists st2,
    get_sub_commands (Some Demo.man_plain) st = (Return tt, st2) /\
    sub_commands (self st2) = [] /\
    forall name,
      is_member Demo.python_object_attrs (self st2) name = false ->
      getattribute Demo.python_object_attrs name st2 =
        (Raise (AttributeError ("Module has no such attribute " ++ name)), st2).
Proof.
  cbv zeta.
  assert (H1 : manual (Some Demo.man_plain) Demo.ready =
               (Return Demo.text_plain,
                snd (manual (Some Demo.man_plain) Demo.ready)))
    by reflexivity.
  assert (H2 : ~ occurs ".SS Module Sub\-Commands" Demo.text_plain).
  { apply find_absent_iff. reflexivity. }
  split; [exact H1|]. split; [exact H2|].
  exact (no_header_no_sub_commands Demo.python_object_attrs _ _ _ _ H1 H2).
Defined.

Lemma last_section_not_parsed_witness :
  let st := Demo.start Demo.bare Cases.disk in
  let st1 := snd (manual (Some Cases.man_last) st) in
  manual (Some Cases.man_last) st = (Return Cases.text_last, st1) /\
  occurs ".SS Module Sub\-Commands" Cases.text_last /\
  ~ occurs ".SS"
      (slice_from Cases.text_last
         (find Cases.text_last ".SS Module Sub\-Commands" + 3)) /\
  exists st2,
    get_sub_commands (Some Cases.man_last) st = (Return tt, st2) /\
    sub_commands (self st2) = [].
Proof.
  cbv zeta.
  assert (H1 : manual (Some Cases.man_last) (Demo.start Demo.bare Cases.disk) =
               (Return Cases.text_last,
                snd (manual (Some Cases.man_last)
                       (Demo.start Demo.bare Cases.disk))))
    by reflexivity.
  assert (H2 : occurs ".SS Module Sub\-Commands" Cases.text_last).
  { exists (".SH DESCRIPTION" ++ nl),
           (nl ++ ".sp" ++ nl ++ "\fBA\fP" ++ nl ++ ".sp" ++ nl ++ "\fBB-C\fP"
            ++ nl ++ "Does B to C." ++ nl ++ ".SH ENVIRONMENT" ++ nl).
    reflexivity. }
  assert (H3 : ~ occurs ".SS"
                 (slice_from Cases.text_last
                    (find Cases.text_last ".SS Module Sub\-Commands" + 3))).
  { apply find_absent_iff. reflexivity. }
  split; [exact H1|]. split; [exact H2|]. split; [exact H3|].
  exact (last_section_not_parsed _ _ _ _ H1 H2 H3).
Defined.

Lemma unreadable_manual_changes_nothing_witness :
  manual_path (Some "/tmp/none.1") (self Demo.ready) = Some "/tmp/none.1" /\
  fs_read (files Demo.ready) "/tmp/none.1" = None /\
  parse_man_file (Some "/tmp/none.1") Demo.ready =
    (Raise (OpenError "/tmp/none.1"),
     mkState (self Demo.ready) (proc Demo.ready) (files Demo.ready)
             (trace Demo.ready ++ [FsOpen "/tmp/none.1"])).
Proof.
  split; [reflexivity|]. split; [reflexivity|].
  exact (unreadable_manual_changes_nothing (Some "/tmp/none.1") Demo.ready
           "/tmp/none.1" eq_refl eq_refl).
Defined.

Lemma parse_man_file_is_both_parsers_witness :
  let st := Demo.ready in
  manual (Some Demo.man_roomy) st =
    (Return Demo.text_roomy, snd (manual (Some Demo.man_roomy) st)) /\
  exists p st2,
    manual_path (Some Demo.man_roomy) (self st) = Some p /\
    parse_man_file (Some Demo.man_roomy) st = (Return tt, st2) /\
    trace st2 = (trace st ++ [FsOpen p; FsOpen p])%list /\
    sub_commands (self st2) =
      sub_commands (self (snd (get_sub_commands (Some Demo.man_roomy) st))) /\
    envinronment_variables (self st2) =
      envinronment_variables
        (self (snd (get_environment_variables (Some Demo.man_roomy) st))).
Proof.
  cbv zeta.
  assert (H1 : manual (Some Demo.man_roomy) Demo.ready =
               (Return Demo.text_roomy,
                snd (manual (Some Demo.man_roomy) Demo.ready)))
    by reflexivity.
  split; [exact H1|].
  exact (parse_man_file_is_both_parsers _ _ _ _ H1).
Defined.

Lemma manual_read_under_home_witness :
  modules_home (self Demo.ready) = Some "/opt/modules" /\
  manual None Demo.ready =
    open_read "/opt/modules/share/man/man1/module.1" Demo.ready.
Proof.
  split; [reflexivity|].
  exact (manual_read_under_home Demo.ready "/opt/modules" eq_refl).
Defined.

Lemma stored_sub_commands_are_tokens_witness :
  let st := Demo.start Demo.bare Demo.disk in
  let st' := snd (get_sub_commands (Some Demo.man_roomy) st) in
  get_sub_commands (Some Demo.man_roomy) st = (Return tt, st') /\
  ("B-C" ∈ sub_commands (self st')) /\
  "B-C" <> "" /\ str_forall cls_sub_command "B-C" = true.
Proof.
  cbv zeta.
  assert (H1 : get_sub_commands (Some Demo.man_roomy)
                 (Demo.start Demo.bare Demo.disk) =
               (Return tt,
                snd (get_sub_commands (Some Demo.man_roomy)
                       (Demo.start Demo.bare Demo.disk))))
    by (vm_compute; reflexivity).
  assert (H2 : "B-C" ∈ sub_commands
                 (self (snd (get_sub_commands (Some Demo.man_roomy)
                               (Demo.start Demo.bare Demo.disk))))).
  { apply (bool_decide_eq_true_1 _). vm_compute. reflexivity. }
  split; [exact H1|]. split; [exact H2|].
  exact (stored_sub_commands_are_tokens _ _ _ _ H1 H2).
Defined.

Lemma stored_environment_variables_are_tokens_witness :
  let st := Demo.start Demo.bare Cases.disk in
  let st' := snd (get_environment_variables (Some Cases.man_env) st) in
  get_environment_variables (Some Cases.man_env) st = (Return tt, st') /\
  ("MODULEPATH" ∈ envinronment_variables (self st')) /\
  "MODULEPATH" <> "" /\
  str_forall cls_env_var "MODULEPATH" = true /\
  str_forall (fun c => negb (Ascii.eqb c "-")) "MODULEPATH" = true.
Proof.
  cbv zeta.
  assert (H1 : get_environment_variables (Some Cases.man_env)
                 (Demo.start Demo.bare Cases.disk) =
               (Return tt,
                snd (get_environment_variables (Some Cases.man_env)
                       (Demo.start Demo.bare Cases.disk))))
    by (vm_compute; reflexivity).
  assert (H2 : "MODULEPATH" ∈ envinronment_variables
                 (self (snd (get_environment_variables (Some Cases.man_env)
                               (Demo.start Demo.bare Cases.disk))))).
  { apply (bool_decide_eq_true_1 _). vm_compute. reflexivity. }
  split; [exact H1|]. split; [exact H2|].
  exact (stored_environment_variables_are_tokens _ _ _ _ H1 H2).
Defined.

Lemma padded_sub_commands_section_parsed_witness :
  let st := Demo.start Demo.bare Demo.disk in
  let pre := ".SH DESCRIPTION" ++ nl in
  let suf := ".SS Modulefiles" ++ nl in
  let sec := ".SS Module Sub\-Commands" ++ nl ++ entries ["A"; "B-C"]
             ++ "Does B to C" ++ String "." (String "010" "") in
  let man := pre ++ sec ++ suf in
  manual (Some Demo.man_roomy) st =
    (Return man, snd (manual (Some Demo.man_roomy) st)) /\
  find man ".SS Module Sub\-Commands" = len pre /\
  find (slice_from man (len pre + 3)) ".SS" = len sec - 3 /\
  Forall (fun t => t <> "" /\ str_forall cls_sub_command t = true)
         ["A"; "B-C"] /\
  findall re_sub_command "Does B to C" = [] /\
  exists st2,
    get_sub_commands (Some Demo.man_roomy) st = (Return tt, st2) /\
    sub_commands (self st2) = ["A"; "B-C"].
Proof.
  cbv zeta.
  assert (H1 : manual (Some Demo.man_roomy) (Demo.start Demo.bare Demo.disk) =
               (Return ((".SH DESCRIPTION" ++ nl)
                        ++ (".SS Module Sub\-Commands" ++ nl
                            ++ entries ["A"; "B-C"] ++ "Does B to C"
                            ++ String "." (String "010" ""))
                        ++ ".SS Modulefiles" ++ nl),
                snd (manual (Some Demo.man_roomy)
                       (Demo.start Demo.bare Demo.disk))))
    by reflexivity.
  assert (H4 : Forall (fun t => t <> "" /\ str_forall cls_sub_command t = true)
                 ["A"; "B-C"]).
  { repeat constructor; discriminate. }
  split; [exact H1|]. split; [reflexivity|]. split; [reflexivity|].
  split; [exact H4|]. split; [reflexivity|].
  exact (padded_sub_commands_section_parsed (Some Demo.man_roomy)
           (Demo.start Demo.bare Demo.disk) _
           (".SH DESCRIPTION" ++ nl) (".SS Modulefiles" ++ nl)
           "Does B to C" ["A"; "B-C"] "." "010"
           H1 eq_refl eq_refl H4 eq_refl).
Defined.

Lemma padded_environment_section_parsed_witness :
  let st := Demo.start Demo.bare Cases.disk in
  let pre := ".SH DESCRIPTION" ++ nl in
  let suf := nl ++ ".SH FILES" ++ nl in
  let sec := ".SH ENVIRONMENT" ++ nl
             ++ entries ["LOADEDMODULES"; "MODULEPATH"]
             ++ "The pat" ++ String "h" (String "." "") in
  let man := pre ++ sec ++ suf in
  manual (Some Cases.man_env) st =
    (Return man, snd (manual (Some Cases.man_env) st)) /\
  find man ".SH ENVIRONMENT" = len pre /\
  find (slice_from man (len pre + 3)) (nl ++ ".S") = len sec - 3 /\
  Forall (fun t => t <> "" /\ str_forall cls_env_var t = true)
         ["LOADEDMODULES"; "MODULEPATH"] /\
  findall re_env_var "The pat" = [] /\
  exists st2,
    get_environment_variables (Some Cases.man_env) st = (Return tt, st2) /\
    envinronment_variables (self st2) = ["LOADEDMODULES"; "MODULEPATH"].
Proof.
  cbv zeta.
  assert (H1 : manual (Some Cases.man_env) (Demo.start Demo.bare Cases.disk) =
               (Return ((".SH DESCRIPTION" ++ nl)
                        ++ (".SH ENVIRONMENT" ++ nl
                            ++ entries ["LOADEDMODULES"; "MODULEPATH"]
                            ++ "The pat" ++ String "h" (String "." ""))
                        ++ nl ++ ".SH FILES" ++ nl),
                snd (manual (Some Cases.man_env)
                       (Demo.start Demo.bare Cases.disk))))
    by reflexivity.
  assert (H4 : Forall (fun t => t <> "" /\ str_forall cls_env_var t = true)
                 ["LOADEDMODULES"; "MODULEPATH"]).
  { repeat constructor; discriminate. }
  split; [exact H1|]. split; [reflexivity|]. split; [reflexivity|].
  split; [exact H4|]. split; [reflexivity|].
  exact (padded_environment_section_parsed (Some Cases.man_env)
           (Demo.start Demo.bare Cases.disk) _
           (".SH DESCRIPTION" ++ nl) (nl ++ ".SH FILES" ++ nl)
           "The pat" ["LOADEDMODULES"; "MODULEPATH"] "h" "."
           H1 eq_refl eq_refl H4 eq_refl).
Defined.

(* ===================================================================== *)
(** ** The home directory: what construction does with it *)
(* ===================================================================== *)

Section Home.

Variable py_exec : string -> Process -> Process * option exn.
Variable py_call :
  pyval -> list pyval -> list (string * pyval) -> Process ->
  Process * outcome pyval.
Variable object_attrs : list string.

(** A construction that returns, in full: how the init script was
    settled, what was read and executed, and the state that is left, with
    the outside calls in their order. *)
Lemma construct_Return_exact (home script : option path) (st st' : State)
    (h : path) :
  (home = Some h \/
   home = None /\ os_environ (proc st) !! "MODULESHOME" = Some h) ->
  construct py_exec home script st = (Return tt, st') ->
  exists f source p' m,
    (script = Some f /\ fs_exists (files st) f = true \/
     script = None /\ fs_glob (files st) h "**/init/*python*.py" = [f]) /\
    fs_read (files st) f = Some source /\
    py_exec source (proc st) = (p', None) /\
    py_globals p' !! "module" = Some m /\
    st' = mkState (mkModule (Some h) (Some f) (Some m) default_sub_commands
                            default_envinronment_variables)
                  p' (files st)
                  (trace st ++
                   [match script with
                    | Some _ => FsExists f
                    | None => FsGlob h "**/init/*python*.py"
                    end; FsOpen f; Exec source]).
Proof.
  intros Hhome H. rewrite (construct_after_home _ _ _ _ _ Hhome) in H.
  destruct script as [f0|].
  - unfold bind at 1 in H. rewrite set_init_file_explicit in H. fields_in H.
    destruct (fs_exists (files st) f0) eqn:Hex; [|discriminate].
    unfold self_init_file, open_read, bind, get_self, log, ret in H.
    fields_in H.
    destruct (fs_read (files st) f0) as [source|] eqn:Hread; [|discriminate].
    unfold exec, bind, get_proc, log in H. fields_in H.
    destruct (py_exec source (proc st)) as [p' [e|]] eqn:Hexec; [discriminate|].
    fields_in H.
    destruct (py_globals p' !! "module") as [m|] eqn:Hm; [|discriminate].
    unfold assign_module, bind, get_self, put_self in H. fields_in H.
    injection H as <-. exists f0, source, p', m.
    split; [left; split; [reflexivity | exact Hex]|].
    split; [exact Hread|]. split; [exact Hexec|]. split; [exact Hm|].
    rewrite <- !app_assoc. reflexivity.
  - unfold set_init_file, self_modules_home, glob, bind, get_self, log, ret
      in H. fields_in H.
    destruct (fs_glob (files st) h "**/init/*python*.py") as [|c [|c2 l]]
      eqn:Hglob; cbn [length Nat.eqb Nat.ltb Nat.leb] in H;
      [discriminate | | discriminate].
    unfold assign_init_file, self_init_file, open_read, bind, get_self,
      put_self, log, ret in H. fields_in H.
    destruct (fs_read (files st) c) as [source|] eqn:Hread; [|discriminate].
    unfold exec, bind, get_proc, log in H. fields_in H.
    destruct (py_exec source (proc st)) as [p' [e|]] eqn:Hexec; [discriminate|].
    fields_in H.
    destruct (py_globals p' !! "module") as [m|] eqn:Hm; [|discriminate].
    unfold assign_module, bind, get_self, put_self in H. fields_in H.
    injection H as <-. exists c, source, p', m.
    split; [right; split; reflexivity|].
    split; [exact Hread|]. split; [exact Hexec|]. split; [exact Hm|].
    rewrite <- !app_assoc. reflexivity.
Qed.

(** C3, amended. Let [h] be the home that was given, or the value of
    [MODULESHOME] when none was given.

    - The home is not tested for existence. With an init script given
      explicitly that exists, can be read, runs and leaves a [module], the
      construction returns, whatever the file system says of [h].
    - After a construction that returns, [modules_home] is
      [pathlib.Path(h)], and the outside calls made were, in this order:
      the test whether the given init script exists, or else the search
      under the home; the opening of the init script; its execution. No
      call among them asks whether the home exists.
    - When the init script was found by the search, the home does exist,
      on a file system where a search under a directory that does not
      exist finds nothing.
    - Whatever operations of the class the caller then performs, and
      whether they return or raise, [modules_home] stays that path. *)
Theorem modules_home_as_given (home script : option path) (st : State)
    (h : path) :
  (home = Some h \/
   home = None /\ os_environ (proc st) !! "MODULESHOME" = Some h) ->
  (forall (f : path) (source : string) (p' : Process) (m : pyval),
     script = Some f ->
     fs_exists (files st) f = true ->
     fs_read (files st) f = Some source ->
     py_exec source (proc st) = (p', None) ->
     py_globals p' !! "module" = Some m ->
     exists st', construct py_exec home script st = (Return tt, st')) /\
  (forall st',
     construct py_exec home script st = (Return tt, st') ->
     modules_home (self st') = Some (Path h) /\
     (exists (f : path) (source : string),
        init_file (self st') = Some f /\
        trace st' =
          (trace st ++
           [match script with
            | Some _ => FsExists f
            | None => FsGlob (Path h) "**/init/*python*.py"
            end; FsOpen f; Exec source])%list) /\
     (script = None ->
      (forall d pattern p,
         p ∈ fs_glob (files st) d pattern -> fs_exists (files st) d = true) ->
      fs_exists (files st') (Path h) = true) /\
     (forall ops : list operation,
        modules_home (self (session py_call object_attrs ops st')) =
        Some (Path h))).
Proof.
  intros Hhome. split.
  - intros f source p' m -> Hex Hread Hexec Hm.
    destruct (construct_runs_script py_exec home (Some f) st h f source p'
                Hhome (or_introl (conj eq_refl Hex)) Hread Hexec) as [tr ->].
    rewrite Hm. eexists. reflexivity.
  - intros st' H.
    destruct (construct_Return_exact home script st st' h Hhome H)
      as (f & source & p' & m & Hinit & Hread & Hexec & Hm & ->).
    unfold Path. fields. split; [reflexivity|]. split.
    { exists f, source. split; reflexivity. }
    split.
    { intros -> Hfs. destruct Hinit as [[Hs _] | [_ Hglob]]; [discriminate|].
      apply (Hfs h "**/init/*python*.py" f). rewrite Hglob.
      apply list_elem_of_here. }
    intros ops. rewrite session_keeps_home. reflexivity.
Qed.

End Home.

Lemma demo_disk_search_under_existing (d pattern p : string) :
  p ∈ fs_glob Demo.disk d pattern -> fs_exists Demo.disk d = true.
Proof.
  cbn [fs_glob fs_exists Demo.disk].
  destruct (String.eqb d Demo.home_dir) eqn:E; cbn [andb].
  - apply String.eqb_eq in E as ->. intros _. reflexivity.
  - intros Hin. inversion Hin.
Qed.

(** An instance built from an init script given explicitly under a home
    that does not exist, and one built by the search under a home that
    does. *)
Lemma modules_home_as_given_witness :
  (exists st',
     construct Demo.tiny_exec (Some "/nowhere") (Some Demo.init_py)
       (Demo.start Demo.bare Demo.disk) = (Return tt, st')) /\
  fs_exists Demo.disk "/nowhere" = false /\
  construct Demo.tiny_exec (Some Demo.home_dir) None
    (Demo.start Demo.bare Demo.disk) = (Return tt, Demo.ready) /\
  modules_home (self Demo.ready) = Some Demo.home_dir /\
  trace Demo.ready =
    [FsGlob Demo.home_dir "**/init/*python*.py"; FsOpen Demo.init_py;
     Exec Demo.script_def] /\
  fs_exists (files Demo.ready) Demo.home_dir = true /\
  modules_home
    (self (session Demo.tiny_call Demo.python_object_attrs
             [DoParseManFile (Some Demo.man_roomy);
              DoSetInitFile (Some Demo.empty_py);
              DoCallWrapper "load" [PyStr "gcc"] [];
              DoGetattribute "modules_home"]
             Demo.ready)) = Some Demo.home_dir.
Proof.
  destruct (modules_home_as_given Demo.tiny_exec Demo.tiny_call
              Demo.python_object_attrs (Some "/nowhere") (Some Demo.init_py)
              (Demo.start Demo.bare Demo.disk) "/nowhere"
              (or_introl eq_refl)) as [Hruns _].
  destruct (modules_home_as_given Demo.tiny_exec Demo.tiny_call
              Demo.python_object_attrs (Some Demo.home_dir) None
              (Demo.start Demo.bare Demo.disk) Demo.home_dir
              (or_introl eq_refl)) as [_ Hleft].
  assert (H : construct Demo.tiny_exec (Some Demo.home_dir) None
                (Demo.start Demo.bare Demo.disk) = (Return tt, Demo.ready))
    by reflexivity.
  destruct (Hleft Demo.ready H) as (Hhome & _ & Hexists & Hkeep).
  split.
  { exact (Hruns Demo.init_py Demo.script_def
             (fst (Demo.tiny_exec Demo.script_def Demo.bare))
             (PyFunction 0) eq_refl eq_refl eq_refl eq_refl eq_refl). }
  split; [reflexivity|]. split; [exact H|]. split; [exact Hhome|].
  split; [reflexivity|].
  split; [exact (Hexists eq_refl demo_disk_search_under_existing)|].
  apply Hkeep.
Defined.
